(** * Robin Accountant: the dialogue engine of [functions/src/robin.ts]

    A shallow embedding of the NLU normaliser ([Robin.processTraits],
    [Robin.processIntents], [Robin.processEntities]), of the rule table and
    the [execute]/[transition] driver of [RobinLogic], and of the session
    orchestrator [Robin.process], followed by the properties proved about
    them.

    Conventions.
    - A value of TypeScript type [any] (the Wit payload and everything copied
      out of it) is a [Value]: the JSON values plus [undefined].  Numbers are
      rationals; the only operations the engine applies to them are the
      comparison [>] and the truthiness test, which rounding to a double
      leaves alone for the literals used below.
    - A JavaScript exception is the outcome [Throw]; an [await] that never
      settles because [execute] keeps recursing is the outcome [Diverge].
      Calls to collaborators settle: they return or throw.
    - Luxon, the clock, the Wit service and the expense ledger are
      collaborators: they are fields of the records [Host] and
      [Session.t]. *)

From stdpp Require Import gmap strings list.
From Stdlib Require Import Ascii ZArith QArith Lia.

Set Warnings "-register-all".
Local Open Scope string_scope.
Local Open Scope Z_scope.

(** ** JavaScript values *)

Inductive Value : Type :=
| VUndefined
| VNull
| VBool (b : bool)
| VNum (q : Q)
| VStr (s : string)
| VArr (items : list Value)
| VObj (props : list (string * Value)).
(* [VObj props]: the own enumerable properties, in enumeration order. *)

Inductive Error : Type :=
| TypeError
| UsageError (message : string)
| InvalidUnitError
| Rejected (reason : string).
(* [Rejected]: the rejection of a promise of a collaborator. *)

(** Outcome of a computation. *)
Inductive Res (A : Type) : Type :=
| Ok (a : A)
| Throw (e : Error)
| Diverge.
Arguments Ok {A} a.
Arguments Throw {A} e.
Arguments Diverge {A}.

Definition res_bind {A B : Type} (m : Res A) (f : A -> Res B) : Res B :=
  match m with
  | Ok a => f a
  | Throw e => Throw e
  | Diverge => Diverge
  end.

Declare Scope res_scope.
Delimit Scope res_scope with res.
Notation "'let?' x := m 'in' k" := (res_bind m (fun x => k))
  (at level 10, x name, m at level 100, k at level 200) : res_scope.

(** Outcome of a call to a collaborator (Luxon, the Wit service, the
    expense ledger): it returns or it throws. *)
Inductive Settled (A : Type) : Type :=
| Fulfilled (a : A)
| Failed (e : Error).
Arguments Fulfilled {A} a.
Arguments Failed {A} e.

Definition settled {A : Type} (s : Settled A) : Res A :=
  match s with
  | Fulfilled a => Ok a
  | Failed e => Throw e
  end.

Fixpoint res_mapM {A B : Type} (f : A -> Res B) (l : list A) : Res (list B) :=
  match l with
  | [] => Ok []
  | x :: r =>
      res_bind (f x) (fun y => res_bind (res_mapM f r) (fun ys => Ok (y :: ys)))
  end.

Fixpoint res_foldM {A S : Type} (f : A -> S -> Res S) (l : list A) (s : S) : Res S :=
  match l with
  | [] => Ok s
  | x :: r => res_bind (f x s) (res_foldM f r)
  end.

(** [ToBoolean]. *)
Definition truthy (v : Value) : bool :=
  match v with
  | VUndefined | VNull => false
  | VBool b => b
  | VNum q => negb (Qeq_bool q 0)
  | VStr s => negb (String.eqb s "")
  | VArr _ | VObj _ => true
  end.

(** [a || b]. *)
Definition orElse (a b : Value) : Value := if truthy a then a else b.

(** [v === "s"]. *)
Definition isStr (v : Value) (s : string) : bool :=
  match v with
  | VStr s' => String.eqb s' s
  | _ => false
  end.

Fixpoint lookupProp (k : string) (props : list (string * Value)) : Value :=
  match props with
  | [] => VUndefined
  | (k', v) :: r => if String.eqb k k' then v else lookupProp k r
  end.

(** [o.k = v] on the own properties of an object: a property that exists
    keeps its place, a new one comes last. *)
Fixpoint assignProp (k : string) (v : Value) (props : list (string * Value))
    : list (string * Value) :=
  match props with
  | [] => [(k, v)]
  | (k', v') :: r =>
      if String.eqb k k' then (k', v) :: r else (k', v') :: assignProp k v r
  end.

(** [v.k] for the property names the engine reads ([intents], [traits],
    [name], [type], [value], [confidence], ...): none of them is a property
    of a primitive's or an array's prototype, so only an object can answer
    with something else than [undefined]; [null] and [undefined] throw. *)
Definition getProp (v : Value) (k : string) : Res Value :=
  match v with
  | VUndefined | VNull => Throw TypeError
  | VObj props => Ok (lookupProp k props)
  | VBool _ | VNum _ | VStr _ | VArr _ => Ok VUndefined
  end.

Fixpoint chars (s : string) : list Value :=
  match s with
  | EmptyString => []
  | String c r => VStr (String c EmptyString) :: chars r
  end.

(** [v[0]]. *)
Definition getFirst (v : Value) : Res Value :=
  match v with
  | VUndefined | VNull => Throw TypeError
  | VArr items => Ok (hd VUndefined items)
  | VStr s => Ok (hd VUndefined (chars s))
  | VObj props => Ok (lookupProp "0" props)
  | VBool _ | VNum _ => Ok VUndefined
  end.

(** [Object.values(v)]. *)
Definition objectValues (v : Value) : Res (list Value) :=
  match v with
  | VUndefined | VNull => Throw TypeError
  | VObj props => Ok (map snd props)
  | VArr items => Ok items
  | VStr s => Ok (chars s)
  | VBool _ | VNum _ => Ok []
  end.

(** The elements a spread [...v] yields; a value that is not iterable
    throws. *)
Definition spread (v : Value) : Res (list Value) :=
  match v with
  | VArr items => Ok items
  | VStr s => Ok (chars s)
  | _ => Throw TypeError
  end.

(** The operand of a relational comparison when no string conversion is
    involved: [Some (Some q)] a number, [Some None] NaN, [None] an operand
    whose comparison goes through [ToPrimitive] and strings. *)
Definition numericOperand (v : Value) : option (option Q) :=
  match v with
  | VUndefined => Some None
  | VNull => Some (Some 0%Q)
  | VBool b => Some (Some (if b then 1%Q else 0%Q))
  | VNum q => Some (Some q)
  | VStr _ | VArr _ | VObj _ => None
  end.

(** Truthiness of an optional object. *)
Definition present {A : Type} (o : option A) : bool :=
  match o with
  | Some _ => true
  | None => false
  end.

Definition Qgtb (a b : Q) : bool := negb (Qle_bool a b).

(** ** Luxon values *)

(** A [DateTime]: an instant in epoch milliseconds, or the invalid
    [DateTime] that parsing hands back for an unreadable text. *)
Inductive DateTime : Type :=
| Instant (ms : Z)
| InvalidDateTime.

Inductive Interval : Type :=
| Between (s e : Z)
| InvalidInterval.

(** [Interval.fromDateTimes]: invalid when an end point is, or when the end
    comes before the start. *)
Definition fromDateTimes (s e : DateTime) : Interval :=
  match s, e with
  | Instant a, Instant b => if b <? a then InvalidInterval else Between a b
  | _, _ => InvalidInterval
  end.

(** A slot that holds a [DateTime], [null] or [undefined]. *)
Inductive DateSlot : Type :=
| NoDate
| NullDate
| ADate (d : DateTime).

(** [interval.start]: [null] on an invalid interval. *)
Definition start (i : Interval) : DateSlot :=
  match i with
  | Between s _ => ADate (Instant s)
  | InvalidInterval => NullDate
  end.

Definition truthyDate (d : DateSlot) : bool :=
  match d with
  | ADate _ => true
  | NoDate | NullDate => false
  end.

(** What the host environment supplies: the clock, Luxon's parser and
    calendar arithmetic, and the comparisons of ECMAScript that go through
    string conversion. *)
Record Host : Type := {
  now : Z;
  fromISO : Value -> DateTime;
  startOf : Z -> Value -> Settled Z;
  endOf : Z -> Value -> Settled Z;
  coercedGreaterThan : Value -> Value -> bool
}.

(** [a > b]. *)
Definition greaterThan (H : Host) (a b : Value) : bool :=
  match numericOperand a, numericOperand b with
  | Some (Some x), Some (Some y) => Qgtb x y
  | Some _, Some _ => false
  | _, _ => coercedGreaterThan H a b
  end.

(** ** The facts of a turn: [IEphemeralContext] *)

Module Money.
Record t : Type := { body : Value; value : Value }.
End Money.

Module Moment.
Record t : Type := { grain : Value; value : DateTime }.
End Moment.

(** The [interval] fact. *)
Module Span.
Record t : Type := { grain : Value; value : Interval }.
End Span.

Record Ephemeral : Type := {
  greetings : bool;
  bye : bool;
  thanks : bool;
  sentiment : Value;
  intent : Value;
  item : Value;
  money : option Money.t;
  moment : option Moment.t;
  interval : option Span.t
}.

Definition set_thanks (b : bool) (e : Ephemeral) : Ephemeral :=
  {| greetings := greetings e; bye := bye e; thanks := b;
     sentiment := sentiment e; intent := intent e; item := item e;
     money := money e; moment := moment e; interval := interval e |}.

Definition set_greetings (b : bool) (e : Ephemeral) : Ephemeral :=
  {| greetings := b; bye := bye e; thanks := thanks e;
     sentiment := sentiment e; intent := intent e; item := item e;
     money := money e; moment := moment e; interval := interval e |}.

Definition set_bye (b : bool) (e : Ephemeral) : Ephemeral :=
  {| greetings := greetings e; bye := b; thanks := thanks e;
     sentiment := sentiment e; intent := intent e; item := item e;
     money := money e; moment := moment e; interval := interval e |}.

Definition set_sentiment (v : Value) (e : Ephemeral) : Ephemeral :=
  {| greetings := greetings e; bye := bye e; thanks := thanks e;
     sentiment := v; intent := intent e; item := item e;
     money := money e; moment := moment e; interval := interval e |}.

Definition set_intent (v : Value) (e : Ephemeral) : Ephemeral :=
  {| greetings := greetings e; bye := bye e; thanks := thanks e;
     sentiment := sentiment e; intent := v; item := item e;
     money := money e; moment := moment e; interval := interval e |}.

Definition set_item (v : Value) (e : Ephemeral) : Ephemeral :=
  {| greetings := greetings e; bye := bye e; thanks := thanks e;
     sentiment := sentiment e; intent := intent e; item := v;
     money := money e; moment := moment e; interval := interval e |}.

Definition set_money (m : Money.t) (e : Ephemeral) : Ephemeral :=
  {| greetings := greetings e; bye := bye e; thanks := thanks e;
     sentiment := sentiment e; intent := intent e; item := item e;
     money := Some m; moment := moment e; interval := interval e |}.

Definition set_moment (m : Moment.t) (e : Ephemeral) : Ephemeral :=
  {| greetings := greetings e; bye := bye e; thanks := thanks e;
     sentiment := sentiment e; intent := intent e; item := item e;
     money := money e; moment := Some m; interval := interval e |}.

Definition set_interval (i : Span.t) (e : Ephemeral) : Ephemeral :=
  {| greetings := greetings e; bye := bye e; thanks := thanks e;
     sentiment := sentiment e; intent := intent e; item := item e;
     money := money e; moment := moment e; interval := Some i |}.

(** The scaffold [process] starts from. *)
Definition scaffold : Ephemeral :=
  {| greetings := false; bye := false; thanks := false;
     sentiment := VStr "neutral"; intent := VStr ""; item := VUndefined;
     money := None; moment := None; interval := None |}.

(** ** The NLU normaliser *)

(** The payload after [process] has defaulted its three sub-fields:
    [payload] is the object the Wit service answered, with the three
    assignments written into it (it is this object that [transition] hands
    back as [wit]); the three other fields are what the assignments
    stored. *)
Record Wit : Type := {
  payload : Value;
  intents : Value;
  entities : Value;
  traits : Value
}.

(** The object after [wit.intents = i; wit.entities = e; wit.traits = t].
    The three names are no elements of an array, whose items stay as they
    are. *)
Definition written (data i e t : Value) : Value :=
  match data with
  | VObj props =>
      VObj (assignProp "traits" t (assignProp "entities" e (assignProp "intents" i props)))
  | _ => data
  end.

(** [wit.intents = wit.intents || []] and its two siblings.  Reading a
    property of [null] or [undefined] throws; so does (module code is
    strict) creating one on a primitive. *)
Definition withDefaults (data : Value) : Res Wit :=
  match data with
  | VObj _ | VArr _ =>
      (let? i := getProp data "intents" in
       let? e := getProp data "entities" in
       let? t := getProp data "traits" in
       Ok {| payload :=
               written data (orElse i (VArr [])) (orElse e (VObj [])) (orElse t (VObj []));
             intents := orElse i (VArr []);
             entities := orElse e (VObj []);
             traits := orElse t (VObj []) |})%res
  | _ => Throw TypeError
  end.

Section Normaliser.
Variable H : Host.

Definition processTraits (wit : Wit) (ephemeral : Ephemeral) : Res Ephemeral :=
  (let? th := getProp (traits wit) "wit$thanks" in
   let ephemeral := set_thanks (truthy th) ephemeral in
   let? g := getProp (traits wit) "wit$greetings" in
   let ephemeral := set_greetings (truthy g) ephemeral in
   let? b := getProp (traits wit) "wit$bye" in
   let ephemeral := set_bye (truthy b) ephemeral in
   let? ephemeral :=
     if greetings ephemeral && bye ephemeral then
       let? cg := getProp g "confidence" in
       let? cb := getProp b "confidence" in
       if greaterThan H cg cb
       then Ok (set_bye false ephemeral)
       else Ok (set_greetings false ephemeral)
     else Ok ephemeral in
   let? s := getProp (traits wit) "wit$sentiment" in
   if truthy s then
     let? first := getFirst s in
     let? v := getProp first "value" in
     Ok (set_sentiment v ephemeral)
   else Ok ephemeral)%res.

(** [wit.intents.map(i => i.name)[0] || ""]: [map] exists on arrays only,
    and runs the callback on every entry before [[0]] is read. *)
Definition processIntents (wit : Wit) (ephemeral : Ephemeral) : Res Ephemeral :=
  match intents wit with
  | VArr items =>
      (let? names := res_mapM (fun i => getProp i "name") items in
       Ok (set_intent (orElse (hd VUndefined names) (VStr "")) ephemeral))%res
  | _ => Throw TypeError
  end.

(** [Object.values(wit.entities).reduce((a, e) => { a.push(...e); return a }, [])] *)
Definition flattenEntities (wit : Wit) : Res (list Value) :=
  (let? groups := objectValues (entities wit) in
   res_foldM (fun e a => let? xs := spread e in Ok (a ++ xs)%list) groups [])%res.

(** The body of the [for] loop of [processEntities].  Every read is of the
    same [entity], so the reads throw together (on [null], [undefined]) or
    not at all. *)
Definition processEntity (entity : Value) (ephemeral : Ephemeral) : Res Ephemeral :=
  (let? name := getProp entity "name" in
   let? type := getProp entity "type" in
   let? value := getProp entity "value" in
   let? body := getProp entity "body" in
   let? grain := getProp entity "grain" in
   let? typeCheck := getProp entity "typeCheck" in
   let? from := getProp entity "from" in
   let? to := getProp entity "to" in
   if isStr name "item" then
     if isStr type "value" then Ok (set_item value ephemeral) else Ok ephemeral
   else if isStr name "wit$amount_of_money" then
     if isStr type "value"
     then Ok (set_money {| Money.body := body; Money.value := value |} ephemeral)
     else Ok ephemeral
   else if isStr name "wit$number" then
     if isStr type "value" && negb (present (money ephemeral))
     then Ok (set_money {| Money.body := body; Money.value := value |} ephemeral)
     else Ok ephemeral
   else if isStr name "wit$datetime" then
     if isStr type "value" then
       Ok (set_moment {| Moment.grain := grain; Moment.value := fromISO H value |} ephemeral)
     else if isStr typeCheck "interval" then
       Ok (set_interval
             {| Span.grain := grain;
                Span.value := fromDateTimes (fromISO H from) (fromISO H to) |}
             ephemeral)
     else Ok ephemeral
   else Ok ephemeral)%res.

Definition processEntities (wit : Wit) (ephemeral : Ephemeral) : Res Ephemeral :=
  (let? entities := flattenEntities wit in
   res_foldM processEntity entities ephemeral)%res.

(** The normalisation steps of [process], from the raw payload to the facts
    of the turn. *)
Definition normalize (data : Value) : Res (Wit * Ephemeral) :=
  (let? wit := withDefaults data in
   let? e := processTraits wit scaffold in
   let? e := processIntents wit e in
   let? e := processEntities wit e in
   Ok (wit, e))%res.
End Normaliser.

(** ** The durable context: [IRobinContext] *)

(** The two counters are numbers in the source.  The model holds integers,
    and its [+ 1] is the source's [+= 1] on the safe integers, below 2^53
    in magnitude, where a double adds exactly. *)
Record Context : Type := {
  isActive : bool;
  state : string;
  userName : string;
  lastMessageOn : DateTime;
  messageCounter : Z;
  lastGreetingOn : DateTime;
  jokeCounter : Z;
  lastJokeOn : DateTime;
  budget : Value;
  currentExpenseItem : Value;
  currentExpenseValue : Value;
  currentExpenseIncurredOn : DateSlot
}.

(** [Number.isSafeInteger] on an integer. *)
Definition safeInteger (n : Z) : Prop :=
  - 9007199254740991 <= n <= 9007199254740991.

Definition set_isActive (b : bool) (c : Context) : Context :=
  {| isActive := b; state := state c; userName := userName c;
     lastMessageOn := lastMessageOn c; messageCounter := messageCounter c;
     lastGreetingOn := lastGreetingOn c; jokeCounter := jokeCounter c;
     lastJokeOn := lastJokeOn c; budget := budget c;
     currentExpenseItem := currentExpenseItem c;
     currentExpenseValue := currentExpenseValue c;
     currentExpenseIncurredOn := currentExpenseIncurredOn c |}.

Definition set_state (s : string) (c : Context) : Context :=
  {| isActive := isActive c; state := s; userName := userName c;
     lastMessageOn := lastMessageOn c; messageCounter := messageCounter c;
     lastGreetingOn := lastGreetingOn c; jokeCounter := jokeCounter c;
     lastJokeOn := lastJokeOn c; budget := budget c;
     currentExpenseItem := currentExpenseItem c;
     currentExpenseValue := currentExpenseValue c;
     currentExpenseIncurredOn := currentExpenseIncurredOn c |}.

Definition set_lastMessageOn (d : DateTime) (c : Context) : Context :=
  {| isActive := isActive c; state := state c; userName := userName c;
     lastMessageOn := d; messageCounter := messageCounter c;
     lastGreetingOn := lastGreetingOn c; jokeCounter := jokeCounter c;
     lastJokeOn := lastJokeOn c; budget := budget c;
     currentExpenseItem := currentExpenseItem c;
     currentExpenseValue := currentExpenseValue c;
     currentExpenseIncurredOn := currentExpenseIncurredOn c |}.

Definition set_messageCounter (n : Z) (c : Context) : Context :=
  {| isActive := isActive c; state := state c; userName := userName c;
     lastMessageOn := lastMessageOn c; messageCounter := n;
     lastGreetingOn := lastGreetingOn c; jokeCounter := jokeCounter c;
     lastJokeOn := lastJokeOn c; budget := budget c;
     currentExpenseItem := currentExpenseItem c;
     currentExpenseValue := currentExpenseValue c;
     currentExpenseIncurredOn := currentExpenseIncurredOn c |}.

Definition set_jokeCounter (n : Z) (c : Context) : Context :=
  {| isActive := isActive c; state := state c; userName := userName c;
     lastMessageOn := lastMessageOn c; messageCounter := messageCounter c;
     lastGreetingOn := lastGreetingOn c; jokeCounter := n;
     lastJokeOn := lastJokeOn c; budget := budget c;
     currentExpenseItem := currentExpenseItem c;
     currentExpenseValue := currentExpenseValue c;
     currentExpenseIncurredOn := currentExpenseIncurredOn c |}.

Definition set_lastJokeOn (d : DateTime) (c : Context) : Context :=
  {| isActive := isActive c; state := state c; userName := userName c;
     lastMessageOn := lastMessageOn c; messageCounter := messageCounter c;
     lastGreetingOn := lastGreetingOn c; jokeCounter := jokeCounter c;
     lastJokeOn := d; budget := budget c;
     currentExpenseItem := currentExpenseItem c;
     currentExpenseValue := currentExpenseValue c;
     currentExpenseIncurredOn := currentExpenseIncurredOn c |}.

Definition set_budget (v : Value) (c : Context) : Context :=
  {| isActive := isActive c; state := state c; userName := userName c;
     lastMessageOn := lastMessageOn c; messageCounter := messageCounter c;
     lastGreetingOn := lastGreetingOn c; jokeCounter := jokeCounter c;
     lastJokeOn := lastJokeOn c; budget := v;
     currentExpenseItem := currentExpenseItem c;
     currentExpenseValue := currentExpenseValue c;
     currentExpenseIncurredOn := currentExpenseIncurredOn c |}.

Definition set_currentExpenseItem (v : Value) (c : Context) : Context :=
  {| isActive := isActive c; state := state c; userName := userName c;
     lastMessageOn := lastMessageOn c; messageCounter := messageCounter c;
     lastGreetingOn := lastGreetingOn c; jokeCounter := jokeCounter c;
     lastJokeOn := lastJokeOn c; budget := budget c;
     currentExpenseItem := v;
     currentExpenseValue := currentExpenseValue c;
     currentExpenseIncurredOn := currentExpenseIncurredOn c |}.

Definition set_currentExpenseValue (v : Value) (c : Context) : Context :=
  {| isActive := isActive c; state := state c; userName := userName c;
     lastMessageOn := lastMessageOn c; messageCounter := messageCounter c;
     lastGreetingOn := lastGreetingOn c; jokeCounter := jokeCounter c;
     lastJokeOn := lastJokeOn c; budget := budget c;
     currentExpenseItem := currentExpenseItem c;
     currentExpenseValue := v;
     currentExpenseIncurredOn := currentExpenseIncurredOn c |}.

Definition set_currentExpenseIncurredOn (d : DateSlot) (c : Context) : Context :=
  {| isActive := isActive c; state := state c; userName := userName c;
     lastMessageOn := lastMessageOn c; messageCounter := messageCounter c;
     lastGreetingOn := lastGreetingOn c; jokeCounter := jokeCounter c;
     lastJokeOn := lastJokeOn c; budget := budget c;
     currentExpenseItem := currentExpenseItem c;
     currentExpenseValue := currentExpenseValue c;
     currentExpenseIncurredOn := d |}.

Definition defaultContext (H : Host) : Context :=
  {| state := "init"; isActive := true; userName := "";
     lastMessageOn := Instant (now H); messageCounter := 0;
     lastGreetingOn := Instant 0; jokeCounter := 0;
     lastJokeOn := Instant 0; budget := VNum 500;
     currentExpenseItem := VUndefined;
     currentExpenseValue := VUndefined;
     currentExpenseIncurredOn := NoDate |}.

(** ** Expenses, actions, replies *)

Module Expense.
Record t : Type := { item : string; value : Q; incurredOn : DateTime }.
End Expense.

(** [IRobinAddExpenseAction]; its [type] is always ["add_expense"]. *)
Module Action.
Record t : Type := { item : Value; value : Value; incurredOn : DateSlot }.
End Action.

(** The entries of the message catalogue [ROBIN_MESSAGES] the engine
    names. *)
Module ROBIN_MESSAGES.
Inductive key : Type :=
| help | doneJoking | introduction | bot | deleteAccountConfirmation
| queryBudget | specifyAffordabilityValue | queryAffordability | addExpense
| noExpenses | expenseSummary | expenseTotal | thanks | hi | bye | confused
| accountDeletionConfirmed | accountDeletionCanceled | specifyBudget
| settingBudget | expenseCompleted | specifyExpenseItem
| specifyExpenseMoment | specifyExpenseValue | personalGreeting
| genericGreeting | welcome.
End ROBIN_MESSAGES.

(** A reply: [Any k] is what [ROBIN_MESSAGES.k.any(vars)] returns (one of
    the variants of entry [k], its variables filled in), [Variant text] an
    entry of the joke list, [Listing] the joined lines of a summary. *)
Inductive Reply : Type :=
| Any (k : ROBIN_MESSAGES.key)
| Variant (text : string)
| Listing (expenses : list Expense.t).

(** Modelled from the spec: the catalogue's [get(index, fallback)], whose
    module [messages.ts] is not among the sources; the interface section
    calls it an index-bounded variant with fallback. *)
Definition catalogGet (variants : list string) (index : Z) (fallback : Reply) : Reply :=
  if (0 <=? index) && (index <? Z.of_nat (List.length variants))
  then Variant (nth (Z.to_nat index) variants "")
  else fallback.

(** ** Sessions and results *)

Definition loc : Type := positive.

(** [IRobinSession]; [context] is a reference to the caller's object. *)
Module Session.
Record t : Type := {
  text : option string;
  voice : option (list Byte.byte);
  timestamp : DateTime;
  context : loc;
  queryExpenses : Interval -> Settled (list Expense.t)
}.
End Session.

(** ** The rule engine: [RobinLogic] *)

(** The fields of a [RobinLogic] instance that its methods assign. *)
Module RobinLogic.
Record t : Type := {
  messages : list Reply;
  actions : list Action.t;
  context : Context
}.
End RobinLogic.

(** A method of [RobinLogic]: it runs on the instance and leaves it changed,
    also when it throws or never returns. *)
Definition M (A : Type) : Type := RobinLogic.t -> Res A * RobinLogic.t.

Definition ret {A : Type} (a : A) : M A := fun l => (Ok a, l).

Definition bind {A B : Type} (m : M A) (f : A -> M B) : M B :=
  fun l =>
    match m l with
    | (Ok a, l') => f a l'
    | (Throw e, l') => (Throw e, l')
    | (Diverge, l') => (Diverge, l')
    end.

Definition lift {A : Type} (r : Res A) : M A := fun l => (r, l).

Declare Scope logic_scope.
Delimit Scope logic_scope with logic.
Notation "'let!' x := m 'in' k" := (bind m (fun x => k))
  (at level 10, x name, m at level 100, k at level 200) : logic_scope.
Notation "m ;; k" := (bind m (fun _ => k))
  (at level 100, right associativity) : logic_scope.

Definition getContext : M Context := fun l => (Ok (RobinLogic.context l), l).

Definition getMessages : M (list Reply) := fun l => (Ok (RobinLogic.messages l), l).

Definition update (f : Context -> Context) : M unit :=
  fun l =>
    (Ok tt,
     {| RobinLogic.messages := RobinLogic.messages l;
        RobinLogic.actions := RobinLogic.actions l;
        RobinLogic.context := f (RobinLogic.context l) |}).

Definition say (message : Reply) : M unit :=
  fun l =>
    (Ok tt,
     {| RobinLogic.messages := RobinLogic.messages l ++ [message];
        RobinLogic.actions := RobinLogic.actions l;
        RobinLogic.context := RobinLogic.context l |}).

Definition action (a : Action.t) : M unit :=
  fun l =>
    (Ok tt,
     {| RobinLogic.messages := RobinLogic.messages l;
        RobinLogic.actions := RobinLogic.actions l ++ [a];
        RobinLogic.context := RobinLogic.context l |}).

Definition resetMessages : M unit :=
  fun l =>
    (Ok tt,
     {| RobinLogic.messages := [];
        RobinLogic.actions := RobinLogic.actions l;
        RobinLogic.context := RobinLogic.context l |}).

(** [s.endsWith("!")] and [s.slice(0, -1)]. *)
Fixpoint endsWithBang (s : string) : bool :=
  match s with
  | EmptyString => false
  | String c EmptyString => Ascii.eqb c "!"%char
  | String _ r => endsWithBang r
  end.

Fixpoint dropLast (s : string) : string :=
  match s with
  | EmptyString => EmptyString
  | String _ EmptyString => EmptyString
  | String c r => String c (dropLast r)
  end.

(** What [this.states[state]] finds: a rule list, nothing, or a property
    that the table inherits from [Object.prototype]. *)
Inductive Entry (R : Type) : Type :=
| Rules (transitions : list (string * R))
| Inherited
| Missing.
Arguments Rules {R} transitions.
Arguments Inherited {R}.
Arguments Missing {R}.

Definition objectPrototype : list string :=
  [ "constructor"; "__defineGetter__"; "__defineSetter__"; "hasOwnProperty";
    "__lookupGetter__"; "__lookupSetter__"; "isPrototypeOf";
    "propertyIsEnumerable"; "toString"; "valueOf"; "__proto__";
    "toLocaleString" ].

Fixpoint member (s : string) (l : list string) : bool :=
  match l with
  | [] => false
  | x :: r => String.eqb s x || member s r
  end.

Section Engine.
Variable H : Host.
Variable jokes : list string.
Variable ephemeral : Ephemeral.
Variable session : Session.t.

(** The value a rule returns: [[state]] or [[state, tag]]. *)
Definition Rule : Type := M (list string).

Definition sayHi : M unit :=
  (let! c := getContext in
   if negb (String.eqb (userName c) "")
   then say (Any ROBIN_MESSAGES.personalGreeting)
   else say (Any ROBIN_MESSAGES.genericGreeting))%logic.

Definition sayWelcome : M unit := say (Any ROBIN_MESSAGES.welcome).

Definition sayJoke : M unit :=
  (let! c := getContext in
   say (catalogGet jokes (jokeCounter c) (Any ROBIN_MESSAGES.doneJoking));;
   update (fun c => set_jokeCounter (Z.min (jokeCounter c + 1) (Z.of_nat (List.length jokes))) c);;
   update (set_lastJokeOn (Instant (now H))))%logic.

(** [lastMessageOn.diffNow("minutes").minutes > minutes].  Luxon's
    [diffNow] is [this.diff(DateTime.local())]: this instant minus now, here
    in milliseconds, so the duration of a past instant is negative; the
    duration of an invalid [DateTime] is NaN, which is greater than
    nothing. *)
Definition diffNow (d : DateTime) : option Z :=
  match d with
  | Instant t => Some (t - now H)
  | InvalidDateTime => None
  end.

Definition timeout (minutes : Z) : M bool :=
  (let! c := getContext in
   ret match diffNow (lastMessageOn c) with
       | Some ms => minutes * 60000 <? ms
       | None => false
       end)%logic.

(** [Interval.fromDateTimes(DateTime.local().startOf("week"),
    DateTime.local().endOf("week"))] *)
Definition thisWeek : Res Interval :=
  (let? s := settled (startOf H (now H) (VStr "week")) in
   let? e := settled (endOf H (now H) (VStr "week")) in
   Ok (fromDateTimes (Instant s) (Instant e)))%res.

(** [d.startOf(unit)], [d.endOf(unit)]: an invalid [DateTime] is handed
    back as it is, before the unit is looked at. *)
Definition dateStartOf (d : DateTime) (unit : Value) : Res DateTime :=
  match d with
  | Instant t => (let? s := settled (startOf H t unit) in Ok (Instant s))%res
  | InvalidDateTime => Ok InvalidDateTime
  end.

Definition dateEndOf (d : DateTime) (unit : Value) : Res DateTime :=
  match d with
  | Instant t => (let? s := settled (endOf H t unit) in Ok (Instant s))%res
  | InvalidDateTime => Ok InvalidDateTime
  end.

(** [interval.start.toLocaleString(..)], [interval.end.toLocaleString(..)]:
    both end points of an invalid interval are [null]. *)
Definition bounds (i : Interval) : Settled (Z * Z) :=
  match i with
  | Between s e => Fulfilled (s, e)
  | InvalidInterval => Failed TypeError
  end.

Definition init_first_interaction : Rule :=
  (sayHi;; sayWelcome;; ret ["main!"])%logic.

Definition main_request_help : Rule :=
  (if negb (isStr (intent ephemeral) "request_help") then ret [""] else
   say (Any ROBIN_MESSAGES.help);;
   ret ["main"])%logic.

Definition main_tell_joke : Rule :=
  (if negb (isStr (intent ephemeral) "tell_joke") then ret [""] else
   sayJoke;;
   ret ["main"])%logic.

Definition main_who_are_you : Rule :=
  (if negb (isStr (intent ephemeral) "who_are_you") then ret [""] else
   say (Any ROBIN_MESSAGES.introduction);;
   ret ["main"])%logic.

Definition main_are_you_bot : Rule :=
  (if negb (isStr (intent ephemeral) "are_you_bot") then ret [""] else
   say (Any ROBIN_MESSAGES.bot);;
   ret ["main"])%logic.

Definition main_delete_account : Rule :=
  (if negb (isStr (intent ephemeral) "delete_account") then ret [""] else
   say (Any ROBIN_MESSAGES.deleteAccountConfirmation);;
   ret ["delete_account"])%logic.

Definition main_set_budget : Rule :=
  (if negb (isStr (intent ephemeral) "set_budget") then ret [""] else
   ret ["set_budget!"])%logic.

Definition main_query_budget : Rule :=
  (if negb (isStr (intent ephemeral) "query_budget") then ret [""] else
   let! week := lift thisWeek in
   let! expenses := lift (settled (Session.queryExpenses session week)) in
   say (Any ROBIN_MESSAGES.queryBudget);;
   ret ["main"])%logic.

Definition main_query_affordability : Rule :=
  (if negb (isStr (intent ephemeral) "query_affordability") then ret [""] else
   (if negb (present (money ephemeral))
    then say (Any ROBIN_MESSAGES.specifyAffordabilityValue)
    else
      let! week := lift thisWeek in
      let! expenses := lift (settled (Session.queryExpenses session week)) in
      say (Any ROBIN_MESSAGES.queryAffordability));;
   ret ["main"])%logic.

Definition main_add_expense : Rule :=
  (if negb (isStr (intent ephemeral) "add_expense") then ret [""] else
   update (set_currentExpenseItem VUndefined);;
   update (set_currentExpenseIncurredOn NoDate);;
   update (set_currentExpenseValue VUndefined);;
   (if negb (truthy (item ephemeral))
       && negb (present (interval ephemeral))
       && negb (present (moment ephemeral))
       && negb (present (money ephemeral))
    then say (Any ROBIN_MESSAGES.addExpense)
    else ret tt);;
   ret ["add_expense!"])%logic.

Definition main_query_summary : Rule :=
  (if negb (isStr (intent ephemeral) "query_summary") then ret [""] else
   let! interval :=
     match interval ephemeral with
     | Some i => ret (Span.value i)
     | None =>
         match moment ephemeral with
         | Some m =>
             let! s := lift (dateStartOf (Moment.value m) (Moment.grain m)) in
             let! e := lift (dateEndOf (Moment.value m) (Moment.grain m)) in
             ret (fromDateTimes s e)
         | None => lift thisWeek
         end
     end in
   let! expenses := lift (settled (Session.queryExpenses session interval)) in
   (match expenses with
    | [] =>
        let! b := lift (settled (bounds interval)) in
        say (Any ROBIN_MESSAGES.noExpenses)
    | _ :: _ =>
        let! b := lift (settled (bounds interval)) in
        say (Any ROBIN_MESSAGES.expenseSummary);;
        say (Listing expenses);;
        say (Any ROBIN_MESSAGES.expenseTotal)
    end);;
   ret ["main"])%logic.

Definition main_confused : Rule :=
  (let! messages := getMessages in
   (match messages with
    | [] =>
        if thanks ephemeral then say (Any ROBIN_MESSAGES.thanks)
        else if greetings ephemeral then say (Any ROBIN_MESSAGES.hi)
        else if bye ephemeral then say (Any ROBIN_MESSAGES.bye)
        else say (Any ROBIN_MESSAGES.confused)
    | _ :: _ => ret tt
    end);;
   ret ["main"])%logic.

Definition delete_account_confirmation : Rule :=
  (let! late := timeout 3 in
   if late then ret ["main"; "timeout"]
   else if isStr (intent ephemeral) "feedback_positive" then
     update (set_isActive false);;
     say (Any ROBIN_MESSAGES.accountDeletionConfirmed);;
     ret ["main"; "positive"]
   else if isStr (intent ephemeral) "feedback_negative" then
     say (Any ROBIN_MESSAGES.accountDeletionCanceled);;
     ret ["main"; "negative"]
   else
     say (Any ROBIN_MESSAGES.confused);;
     ret [""; "confused"])%logic.

Definition set_budget_set_budget : Rule :=
  (match money ephemeral with
   | None =>
       say (Any ROBIN_MESSAGES.specifyBudget);;
       ret [""]
   | Some m =>
       update (set_budget (Money.value m));;
       say (Any ROBIN_MESSAGES.settingBudget);;
       ret ["main"]
   end)%logic.

Definition add_expense_add_expense : Rule :=
  (let! c := getContext in
   (if truthy (item ephemeral) && negb (truthy (currentExpenseItem c))
    then update (set_currentExpenseItem (item ephemeral))
    else ret tt);;
   let! c := getContext in
   let fromInterval : M unit :=
     match interval ephemeral with
     | Some i =>
         if negb (truthyDate (currentExpenseIncurredOn c))
         then update (set_currentExpenseIncurredOn (start (Span.value i)))
         else ret tt
     | None => ret tt
     end in
   (match moment ephemeral with
    | Some m =>
        if negb (truthyDate (currentExpenseIncurredOn c))
        then update (set_currentExpenseIncurredOn (ADate (Moment.value m)))
        else fromInterval
    | None => fromInterval
    end);;
   let! c := getContext in
   (match money ephemeral with
    | Some m =>
        if negb (truthy (currentExpenseValue c))
        then update (set_currentExpenseValue (Money.value m))
        else ret tt
    | None => ret tt
    end);;
   let! c := getContext in
   if negb (truthy (currentExpenseItem c)) then ret ["specify_expense_item!"]
   else if negb (truthyDate (currentExpenseIncurredOn c)) then ret ["specify_expense_moment!"]
   else if negb (truthy (currentExpenseValue c)) then ret ["specify_expense_value!"]
   else
     action {| Action.item := currentExpenseItem c;
               Action.value := currentExpenseValue c;
               Action.incurredOn := currentExpenseIncurredOn c |};;
     say (Any ROBIN_MESSAGES.expenseCompleted);;
     ret ["main"; "expense_added"])%logic.

Definition specify_expense_item : Rule :=
  (if negb (truthy (item ephemeral)) then
     say (Any ROBIN_MESSAGES.specifyExpenseItem);;
     ret [""]
   else
     update (set_currentExpenseItem (item ephemeral));;
     ret ["add_expense!"; "item_specified"])%logic.

Definition specify_expense_moment : Rule :=
  (match moment ephemeral, interval ephemeral with
   | None, None =>
       say (Any ROBIN_MESSAGES.specifyExpenseMoment);;
       ret [""]
   | Some m, _ =>
       update (set_currentExpenseIncurredOn (ADate (Moment.value m)));;
       ret ["add_expense!"; "moment_specified"]
   | None, Some i =>
       update (set_currentExpenseIncurredOn (start (Span.value i)));;
       ret ["add_expense!"; "moment_specified"]
   end)%logic.

Definition specify_expense_value : Rule :=
  (match money ephemeral with
   | None =>
       say (Any ROBIN_MESSAGES.specifyExpenseValue);;
       ret [""]
   | Some m =>
       update (set_currentExpenseValue (Money.value m));;
       ret ["add_expense!"; "value_specified"]
   end)%logic.

Definition initRules : list (string * Rule) :=
  [ ("first_interaction", init_first_interaction) ].

(** The table [states], with what a lookup of any other name finds. *)
Definition states (name : string) : Entry Rule :=
  if String.eqb name "init" then Rules initRules
  else if String.eqb name "main" then
    Rules [ ("request_help", main_request_help);
            ("tell_joke", main_tell_joke);
            ("who_are_you", main_who_are_you);
            ("are_you_bot", main_are_you_bot);
            ("delete_account", main_delete_account);
            ("set_budget", main_set_budget);
            ("query_budget", main_query_budget);
            ("query_affordability", main_query_affordability);
            ("add_expense", main_add_expense);
            ("query_summary", main_query_summary);
            ("confused", main_confused) ]
  else if String.eqb name "delete_account" then
    Rules [ ("confirmation", delete_account_confirmation) ]
  else if String.eqb name "set_budget" then
    Rules [ ("set_budget", set_budget_set_budget) ]
  else if String.eqb name "add_expense" then
    Rules [ ("add_expense", add_expense_add_expense) ]
  else if String.eqb name "specify_expense_item" then
    Rules [ ("specify_expense_item", specify_expense_item) ]
  else if String.eqb name "specify_expense_moment" then
    Rules [ ("specify_expense_moment", specify_expense_moment) ]
  else if String.eqb name "specify_expense_value" then
    Rules [ ("specify_expense_value", specify_expense_value) ]
  else if member name objectPrototype then Inherited
  else Missing.

(** The [for] loop of [execute]; [recur] is the recursive call. *)
Fixpoint tryRules (recur : string -> M string) (state : string)
    (transitions : list (string * Rule)) : M string :=
  match transitions with
  | [] => ret state
  | t :: rest =>
      (let! next := snd t in
       if endsWithBang (hd "" next) then recur (dropLast (hd "" next))
       else if negb (String.eqb (hd "" next) "") then ret (hd "" next)
       else tryRules recur state rest)%logic
  end.

(** [this.states[state] || this.states["init"]]; [None] stands for an
    inherited property, which the [for] loop cannot iterate. *)
Definition transitionsOf (state : string) : option (list (string * Rule)) :=
  match states state with
  | Rules transitions => Some transitions
  | Missing => Some initRules
  | Inherited => None
  end.

(** [execute(state)]; [fuel] bounds the depth of the recursion, and a run
    that needs more is one that has not returned yet. *)
Fixpoint execute (fuel : nat) (state : string) : M string :=
  match fuel with
  | O => lift Diverge
  | S fuel' =>
      match transitionsOf state with
      | Some transitions => tryRules (execute fuel') state transitions
      | None => lift (Throw TypeError)
      end
  end.

(** What [transition] hands back besides the context: the engine's
    [context] field refers to the object whose content [RobinLogic.context]
    holds here. *)
Record Bundle : Type := {
  messages : list Reply;
  actions : list Action.t
}.

(** [transition()].  [messageCounter += 1] is the integer successor on a
    safe integer (see [Context]). *)
Definition transition (fuel : nat) : M Bundle :=
  (resetMessages;;
   let! c := getContext in
   let! s := execute fuel (state c) in
   update (set_state s);;
   update (fun c => set_messageCounter (messageCounter c + 1) c);;
   update (set_lastMessageOn (Instant (now H)));;
   fun l =>
     (Ok {| messages := RobinLogic.messages l; actions := RobinLogic.actions l |}, l))%logic.
End Engine.

(** ** The session orchestrator: [Robin] *)

(** [IRobinResult]; [context] is a reference. *)
Module Result.
Record t : Type := {
  context : loc;
  messages : list Reply;
  actions : list Action.t;
  wit : Value
}.
End Result.

(** The two requests to the Wit service. *)
Record Robin : Type := {
  queryWitText : string -> DateTime -> Settled Value;
  queryWitVoice : list Byte.byte -> DateTime -> Settled Value
}.

Definition queryWit (R : Robin) (session : Session.t) : Res Value :=
  match Session.text session with
  | Some t =>
      if negb (String.eqb t "") then settled (queryWitText R t (Session.timestamp session))
      else
        match Session.voice session with
        | Some v => settled (queryWitVoice R v (Session.timestamp session))
        | None => Throw (UsageError "Either text or voice must be given")
        end
  | None =>
      match Session.voice session with
      | Some v => settled (queryWitVoice R v (Session.timestamp session))
      | None => Throw (UsageError "Either text or voice must be given")
      end
  end.

(** [process(session)] on a heap of context objects.  [Object.assign({},
    session.context)] allocates the copy; the engine then writes to the copy
    only.  The answer is [None] when [session.context] refers to no
    object. *)
Definition process (H : Host) (jokes : list string) (R : Robin) (fuel : nat)
    (heap : gmap loc Context) (session : Session.t)
    : option (Res Result.t * gmap loc Context) :=
  match heap !! Session.context session with
  | None => None
  | Some original =>
      let copy := fresh (dom heap) in
      let heap := <[copy := original]> heap in
      match res_bind (queryWit R session) (normalize H) with
      | Ok (wit, ephemeral) =>
          let '(r, l) :=
            transition H jokes ephemeral session fuel
              {| RobinLogic.messages := [];
                 RobinLogic.actions := [];
                 RobinLogic.context := original |} in
          (Some
             (res_bind r (fun b =>
                Ok {| Result.context := copy;
                      Result.messages := messages b;
                      Result.actions := actions b;
                      Result.wit := payload wit |}),
              <[copy := RobinLogic.context l]> heap))
      | Throw e => Some (Throw e, heap)
      | Diverge => Some (Diverge, heap)
      end
  end.

(** ** Vocabulary of the properties *)

(** A new [RobinLogic] around a context. *)
Definition newLogic (c : Context) : RobinLogic.t :=
  {| RobinLogic.messages := []; RobinLogic.actions := []; RobinLogic.context := c |}.

(** A conversation: each turn runs a new [RobinLogic] on the context the
    turn before left, as a caller does that stores [result.context]. *)
Fixpoint converse (H : Host) (jokes : list string) (fuel : nat)
    (turns : list (Ephemeral * Session.t)) (c : Context)
    : Res (Context * list (list Reply)) :=
  match turns with
  | [] => Ok (c, [])
  | t :: rest =>
      match transition H jokes (fst t) (snd t) fuel (newLogic c) with
      | (Ok b, l) =>
          res_bind (converse H jokes fuel rest (RobinLogic.context l))
            (fun r => Ok (fst r, messages b :: snd r))
      | (Throw e, _) => Throw e
      | (Diverge, _) => Diverge
      end
  end.

(** Every rule of the list, run in turn, returns the empty directive; the
    answer is the instance as the last rule leaves it. *)
Fixpoint allDecline (transitions : list (string * Rule)) (l : RobinLogic.t)
    : option RobinLogic.t :=
  match transitions with
  | [] => Some l
  | t :: rest =>
      match snd t l with
      | (Ok next, l') =>
          if String.eqb (hd "" next) "" then allDecline rest l' else None
      | _ => None
      end
  end.

Definition notNullish (v : Value) : bool :=
  match v with
  | VUndefined | VNull => false
  | _ => true
  end.


(** A property of a value that is not nullish. *)
Definition prop (v : Value) (k : string) : Value :=
  match v with
  | VObj props => lookupProp k props
  | _ => VUndefined
  end.


(** *** Example data *)

Definition aHost : Host :=
  {| now := 1600000000000;
     fromISO := fun _ => InvalidDateTime;
     startOf := fun t _ => Fulfilled t;
     endOf := fun t _ => Fulfilled t;
     coercedGreaterThan := fun _ _ => false |}.

Definition aSession : Session.t :=
  {| Session.text := Some "hello";
     Session.voice := None;
     Session.timestamp := Instant 1600000000000;
     Session.context := 1%positive;
     Session.queryExpenses := fun _ => Fulfilled [] |}.

(** A session whose ledger is out of reach. *)
Definition aSessionOffline : Session.t :=
  {| Session.text := Some "how much is left?";
     Session.voice := None;
     Session.timestamp := Instant 1600000000000;
     Session.context := 1%positive;
     Session.queryExpenses := fun _ => Failed (Rejected "ledger unavailable") |}.

(** A session with neither text nor voice. *)
Definition aSessionEmpty : Session.t :=
  {| Session.text := None;
     Session.voice := None;
     Session.timestamp := Instant 1600000000000;
     Session.context := 1%positive;
     Session.queryExpenses := fun _ => Fulfilled [] |}.

Definition aRobin : Robin :=
  {| queryWitText := fun _ _ => Fulfilled (VObj []);
     queryWitVoice := fun _ _ => Fulfilled (VObj []) |}.

Definition someJokes : list string := [ "first joke"; "second joke" ].

(** The facts of a turn that carries only an intent. *)
Definition justIntent (name : string) : Ephemeral := set_intent (VStr name) scaffold.

(** A context in state [s], otherwise the default one. *)
Definition contextIn (s : string) : Context := set_state s (defaultContext aHost).

(** The context of a user who asked for the deletion of the account ten
    minutes ago. *)
Definition staleConfirmation : Context :=
  set_lastMessageOn (Instant (now aHost - 600000)) (contextIn "delete_account").

(** The context of a user asked for the confirmation, whose last message
    is dated three minutes and a millisecond ahead of the clock. *)
Definition datedAhead : Context :=
  set_lastMessageOn (Instant (now aHost + 180001)) (contextIn "delete_account").

(** "I spent $0 on coffee today", understood in full. *)
Definition freeCoffee : Ephemeral :=
  set_money {| Money.body := VStr "$0"; Money.value := VNum 0 |}
    (set_moment {| Moment.grain := VStr "day"; Moment.value := Instant 1599955200000 |}
       (set_item (VStr "coffee") (justIntent "add_expense"))).

(** "I spent $5 on coffee today". *)
Definition coffee : Ephemeral :=
  set_money {| Money.body := VStr "$5"; Money.value := VNum 5 |}
    (set_moment {| Moment.grain := VStr "day"; Moment.value := Instant 1599955200000 |}
       (set_item (VStr "coffee") (justIntent "add_expense"))).


(** A date/time entity of the interval kind, in the shape of the NLU
    boundary: [type] is ["interval"], with [from] and [to]. *)
Definition intervalEntity : Value :=
  VObj [ ("name", VStr "wit$datetime"); ("type", VStr "interval");
         ("from", VStr "2020-06-01T00:00:00.000-07:00");
         ("to", VStr "2020-06-08T00:00:00.000-07:00");
         ("grain", VStr "week"); ("body", VStr "last week") ].

Definition intervalPayload : Value :=
  VObj [ ("intents", VArr [ VObj [ ("name", VStr "query_summary"); ("confidence", VNum (99 # 100)) ] ]);
         ("entities", VObj [ ("wit$datetime:datetime", VArr [ intervalEntity ]) ]) ].

(** The payload of the tie-break example. *)
Definition helloGoodbye : Value :=
  VObj [ ("traits",
          VObj [ ("wit$greetings", VObj [ ("confidence", VNum (9 # 10)) ]);
                 ("wit$bye", VObj [ ("confidence", VNum (4 # 10)) ]) ]) ].



(** What [timeout(minutes)] answers on an instance. *)
Definition timedOut (H : Host) (minutes : Z) (l : RobinLogic.t) : bool :=
  match fst (timeout H minutes l) with
  | Ok late => late
  | _ => false
  end.


(** The states of the budget dialogue and of the expense dialogue. *)
Definition inDialogue (st : string) : bool :=
  member st [ "set_budget"; "add_expense"; "specify_expense_item";
              "specify_expense_moment"; "specify_expense_value" ].

(** The three assignments that end [transition]. *)
Definition settle (H : Host) (s : string) (l : RobinLogic.t) : RobinLogic.t :=
  {| RobinLogic.messages := RobinLogic.messages l;
     RobinLogic.actions := RobinLogic.actions l;
     RobinLogic.context :=
       set_lastMessageOn (Instant (now H))
         (set_messageCounter (messageCounter (set_state s (RobinLogic.context l)) + 1)
            (set_state s (RobinLogic.context l))) |}.

(** The instance once [transition] has emptied the message list. *)
Definition silenced (l : RobinLogic.t) : RobinLogic.t :=
  {| RobinLogic.messages := [];
     RobinLogic.actions := RobinLogic.actions l;
     RobinLogic.context := RobinLogic.context l |}.

(** The instance in which the engine is caught once it has stored the
    facts of [freeCoffee]: all three slots are written, the value is 0. *)
Definition zeroValueLoop : RobinLogic.t :=
  newLogic
    (set_currentExpenseValue (VNum 0)
       (set_currentExpenseIncurredOn (ADate (Instant 1599955200000))
          (set_currentExpenseItem (VStr "coffee") (contextIn "main")))).


(** *** The claims that fail, as they are stated *)


(** The claim of a turn without effect when every rule declines. *)
Definition declining_is_silent : Prop :=
  forall (H : Host) (jokes : list string) (ephemeral : Ephemeral) (session : Session.t)
         (st : string) (ts : list (string * Rule)) (l l' : RobinLogic.t),
    transitionsOf H jokes ephemeral session st = Some ts ->
    allDecline ts l = Some l' ->
    RobinLogic.messages l' = RobinLogic.messages l.




(** The states other than [init] and [main]. *)
Definition besideMain (st : string) : bool :=
  member st [ "delete_account"; "set_budget"; "add_expense"; "specify_expense_item";
              "specify_expense_moment"; "specify_expense_value" ].

(** A heap that holds the caller's context alone. *)
Definition aHeap : gmap loc Context := {[ 1%positive := contextIn "main" ]}.

(** Facts with a degenerate value: a money fact whose value is falsy (0,
    say), or, in the absence of a moment, an interval fact without a start
    (an invalid interval). *)
Definition degenerate (e : Ephemeral) : bool :=
  match money e with
  | Some m => negb (truthy (Money.value m))
  | None => false
  end
  || (negb (present (moment e))
      && match interval e with
         | Some i => negb (truthyDate (start (Span.value i)))
         | None => false
         end).

(** "twenty": a number without a currency. *)
Definition numberEntity : Value :=
  VObj [ ("name", VStr "wit$number"); ("type", VStr "value");
         ("value", VNum 20); ("body", VStr "twenty") ].

(** "tomorrow". *)
Definition dayEntity : Value :=
  VObj [ ("name", VStr "wit$datetime"); ("type", VStr "value");
         ("value", VStr "2020-06-13T00:00:00.000-07:00"); ("grain", VStr "day");
         ("body", VStr "tomorrow") ].

(** An entity named [name] whose [type] is ["value"]. *)
Definition isEntity (name : string) (entity : Value) : bool :=
  isStr (prop entity "name") name && isStr (prop entity "type") "value".

(** The money fact and the moment an entity stands for. *)
Definition moneyOf (entity : Value) : Money.t :=
  {| Money.body := prop entity "body"; Money.value := prop entity "value" |}.

Definition momentOf (H : Host) (entity : Value) : Moment.t :=
  {| Moment.grain := prop entity "grain"; Moment.value := fromISO H (prop entity "value") |}.

(** "five dollars", an amount of money. *)
Definition fiveDollars : Value :=
  VObj [ ("name", VStr "wit$amount_of_money"); ("type", VStr "value");
         ("value", VNum 5); ("body", VStr "five dollars") ].

(** "thirty": a second number. *)
Definition secondNumber : Value :=
  VObj [ ("name", VStr "wit$number"); ("type", VStr "value");
         ("value", VNum 30); ("body", VStr "thirty") ].

(** "twenty or thirty, five dollars". *)
Definition numbersAndAmount : Value :=
  VObj [ ("entities",
          VObj [ ("wit$number:number", VArr [ numberEntity; secondNumber ]);
                 ("wit$amount_of_money:amount_of_money", VArr [ fiveDollars ]) ]) ].

(** Two days named in one message. *)
Definition twoDays : Value :=
  VObj [ ("entities",
          VObj [ ("wit$datetime:datetime",
                  VArr [ dayEntity;
                         VObj [ ("name", VStr "wit$datetime"); ("type", VStr "value");
                                ("value", VStr "2020-06-14T00:00:00.000-07:00");
                                ("grain", VStr "day") ] ]) ]) ].

(** The names of the states of the table. *)
Definition stateNames : list string :=
  [ "init"; "main"; "delete_account"; "set_budget"; "add_expense";
    "specify_expense_item"; "specify_expense_moment"; "specify_expense_value" ].

(** Two intents, the second one named, the first one not. *)
Definition unnamedFirst : Value :=
  VObj [ ("intents",
          VArr [ VObj [ ("id", VStr "1"); ("confidence", VNum 1) ];
                 VObj [ ("id", VStr "2"); ("name", VStr "tell_joke"); ("confidence", VNum 1) ] ]) ].

(** The intents the rules of [main] answer to. *)
Definition knownIntents : list string :=
  [ "request_help"; "tell_joke"; "who_are_you"; "are_you_bot"; "delete_account";
    "set_budget"; "query_budget"; "query_affordability"; "add_expense";
    "query_summary" ].

(** The one reply of a turn without a known intent. *)
Definition smallTalk (e : Ephemeral) : Reply :=
  if thanks e then Any ROBIN_MESSAGES.thanks
  else if greetings e then Any ROBIN_MESSAGES.hi
  else if bye e then Any ROBIN_MESSAGES.bye
  else Any ROBIN_MESSAGES.confused.

(** [this.say(m)] on an instance. *)
Definition said (m : Reply) (l : RobinLogic.t) : RobinLogic.t :=
  {| RobinLogic.messages := (RobinLogic.messages l ++ [m])%list;
     RobinLogic.actions := RobinLogic.actions l;
     RobinLogic.context := RobinLogic.context l |}.

(** "thanks, bye": two traits and no intent. *)
Definition thanksAndBye : Ephemeral :=
  {| greetings := false; bye := true; thanks := true; sentiment := VStr "neutral";
     intent := VStr ""; item := VUndefined; money := None; moment := None;
     interval := None |}.

(** "what did I spend on the 32nd?": a summary for a day that is none. *)
Definition summaryOfNoDay : Ephemeral :=
  set_moment {| Moment.grain := VStr "day"; Moment.value := InvalidDateTime |}
    (justIntent "query_summary").

(** [sayHi]'s choice of greeting. *)
Definition greeting (c : Context) : Reply :=
  if negb (String.eqb (userName c) "") then Any ROBIN_MESSAGES.personalGreeting
  else Any ROBIN_MESSAGES.genericGreeting.





(** The states a turn can end in. *)
Definition restingStates : list string :=
  [ "main"; "delete_account"; "set_budget";
    "specify_expense_item"; "specify_expense_moment"; "specify_expense_value" ].
(* ===================================================================== *)
(** * Properties *)
(* ===================================================================== *)

(** ** The normaliser *)

Lemma truthy_notNullish (v : Value) : truthy v = true -> notNullish v = true.
Proof. destruct v; simpl; congruence. Qed.

Lemma getProp_notNullish (v : Value) (k : string) :
  notNullish v = true -> getProp v k = Ok (prop v k).
Proof. destruct v; simpl; congruence. Qed.

Lemma orElse_notNullish (a b : Value) :
  notNullish b = true -> notNullish (orElse a b) = true.
Proof.
  intros Hb. unfold orElse. destruct (truthy a) eqn:E; [|exact Hb].
  now apply truthy_notNullish.
Qed.


(** What [withDefaults] answers on an object or an array. *)
Lemma withDefaults_fields (data : Value) (wit : Wit) :
  withDefaults data = Ok wit ->
  payload wit = written data (intents wit) (entities wit) (traits wit)
  /\ intents wit = orElse (prop data "intents") (VArr [])
  /\ entities wit = orElse (prop data "entities") (VObj [])
  /\ traits wit = orElse (prop data "traits") (VObj []).
Proof.
  destruct data; simpl; try discriminate; intros [= <-]; simpl; auto.
Qed.


Section NormaliserFacts.
Variable H : Host.

(** The steps of [normalize], one by one. *)
Lemma normalize_steps (data : Value) (wit : Wit) (e : Ephemeral) :
  normalize H data = Ok (wit, e) ->
  exists e1 e2,
    withDefaults data = Ok wit
    /\ processTraits H wit scaffold = Ok e1
    /\ processIntents wit e1 = Ok e2
    /\ processEntities H wit e2 = Ok e.
Proof.
  unfold normalize.
  destruct (withDefaults data) as [w| |] eqn:E0; simpl; try discriminate.
  destruct (processTraits H w scaffold) as [e1| |] eqn:E1; simpl; try discriminate.
  destruct (processIntents w e1) as [e2| |] eqn:E2; simpl; try discriminate.
  destruct (processEntities H w e2) as [e3| |] eqn:E3; simpl; try discriminate.
  intros [= <- <-]. exists e1, e2. auto.
Qed.

(** The last statement of [processTraits]. *)
Lemma sentiment_statement (s : Value) (e e' : Ephemeral) :
  (if truthy s
   then res_bind (getFirst s) (fun first =>
          res_bind (getProp first "value") (fun v => Ok (set_sentiment v e)))
   else Ok e) = Ok e' ->
  (truthy s = false -> sentiment e' = sentiment e)
  /\ (forall first rest, s = VArr (first :: rest) -> sentiment e' = prop first "value")
  /\ thanks e' = thanks e /\ greetings e' = greetings e /\ bye e' = bye e
  /\ intent e' = intent e /\ item e' = item e /\ money e' = money e
  /\ moment e' = moment e /\ interval e' = interval e.
Proof.
  destruct (truthy s) eqn:Es.
  - destruct (getFirst s) as [first| |] eqn:Ef; cbn [res_bind]; try discriminate.
    destruct (getProp first "value") as [v| |] eqn:Ev; cbn [res_bind]; try discriminate.
    intros [= <-]. cbn. repeat split; try congruence.
    intros f r ->. cbn in Ef. injection Ef as <-.
    destruct f; cbn in *; congruence.
  - intros [= <-]. repeat split; try congruence.
    intros f r ->. discriminate.
Qed.

(** The flags and the sentiment that [processTraits] leaves, whenever it
    returns. *)
Lemma processTraits_result (wit : Wit) (e e' : Ephemeral) :
  notNullish (traits wit) = true ->
  processTraits H wit e = Ok e' ->
  let g := prop (traits wit) "wit$greetings" in
  let b := prop (traits wit) "wit$bye" in
  let s := prop (traits wit) "wit$sentiment" in
  thanks e' = truthy (prop (traits wit) "wit$thanks")
  /\ greetings e' =
       (if truthy g && truthy b
        then greaterThan H (prop g "confidence") (prop b "confidence")
        else truthy g)
  /\ bye e' =
       (if truthy g && truthy b
        then negb (greaterThan H (prop g "confidence") (prop b "confidence"))
        else truthy b)
  /\ (truthy s = false -> sentiment e' = sentiment e)
  /\ (forall first rest, s = VArr (first :: rest) -> sentiment e' = prop first "value")
  /\ intent e' = intent e /\ item e' = item e /\ money e' = money e
  /\ moment e' = moment e /\ interval e' = interval e.
Proof.
  intros Ht. unfold processTraits.
  rewrite !(getProp_notNullish (traits wit)) by exact Ht. cbn [res_bind].
  set (g := prop (traits wit) "wit$greetings").
  set (b := prop (traits wit) "wit$bye").
  set (s := prop (traits wit) "wit$sentiment").
  cbn [greetings bye set_bye set_greetings set_thanks].
  destruct (truthy g) eqn:Eg, (truthy b) eqn:Eb; cbn [andb res_bind].
  1: rewrite (getProp_notNullish g), (getProp_notNullish b)
       by now apply truthy_notNullish.
  1: cbn [res_bind];
     destruct (greaterThan H (prop g "confidence") (prop b "confidence")); cbn [res_bind negb].
  all: intros E; apply sentiment_statement in E; cbn in E;
    destruct E as (? & ? & ? & ? & ? & ? & ? & ? & ? & ?); repeat split; assumption.
Qed.

End NormaliserFacts.

(** [processIntents] writes the intent only. *)
Lemma processIntents_frame (wit : Wit) (e e' : Ephemeral) :
  processIntents wit e = Ok e' ->
  thanks e' = thanks e /\ greetings e' = greetings e /\ bye e' = bye e
  /\ sentiment e' = sentiment e.
Proof.
  unfold processIntents. destruct (intents wit); try discriminate.
  destruct (res_mapM _ items); cbn [res_bind]; try discriminate.
  intros [= <-]. auto.
Qed.



Section EntityFacts.
Variable H : Host.

(** An entity of a kind the loop knows changes [item], [money], [moment] or
    [interval]; nothing else. *)
Lemma processEntity_frame (entity : Value) (e e' : Ephemeral) :
  processEntity H entity e = Ok e' ->
  thanks e' = thanks e /\ greetings e' = greetings e /\ bye e' = bye e
  /\ sentiment e' = sentiment e /\ intent e' = intent e.
Proof.
  unfold processEntity.
  destruct entity; cbn [getProp res_bind]; try discriminate;
    repeat match goal with
           | |- context [if ?c then _ else _] => destruct c
           end;
    intros [= <-]; auto.
Qed.


Lemma processEntity_fold_frame (entities : list Value) (e e' : Ephemeral) :
  res_foldM (processEntity H) entities e = Ok e' ->
  thanks e' = thanks e /\ greetings e' = greetings e /\ bye e' = bye e
  /\ sentiment e' = sentiment e /\ intent e' = intent e.
Proof.
  revert e. induction entities as [|x r IH]; simpl; intros e.
  - intros [= <-]. auto.
  - destruct (processEntity H x e) as [e1| |] eqn:E1; cbn [res_bind]; try discriminate.
    intros E. apply IH in E. apply processEntity_frame in E1.
    destruct E as (? & ? & ? & ? & ?), E1 as (? & ? & ? & ? & ?).
    repeat split; congruence.
Qed.


Lemma processEntities_frame (wit : Wit) (e e' : Ephemeral) :
  processEntities H wit e = Ok e' ->
  thanks e' = thanks e /\ greetings e' = greetings e /\ bye e' = bye e
  /\ sentiment e' = sentiment e /\ intent e' = intent e.
Proof.
  unfold processEntities.
  destruct (flattenEntities wit) as [xs| |]; cbn [res_bind]; try discriminate.
  apply processEntity_fold_frame.
Qed.
End EntityFacts.



(** What the loop does with a date/time entity of type ["value"]. *)
Lemma datetime_value_sets_moment (H : Host) (props : list (string * Value)) (e : Ephemeral) :
  lookupProp "name" props = VStr "wit$datetime" ->
  lookupProp "type" props = VStr "value" ->
  processEntity H (VObj props) e
  = Ok (set_moment {| Moment.grain := lookupProp "grain" props;
                      Moment.value := fromISO H (lookupProp "value" props) |} e).
Proof.
  intros Hn Ht. unfold processEntity. cbn [getProp res_bind]. rewrite Hn, Ht. reflexivity.
Qed.

(** What it does with any other date/time entity: the [interval] fact is
    written when the entity has a field [typeCheck] that is ["interval"],
    and only then; [type] is not looked at again. *)
Lemma datetime_interval_reads_typeCheck (H : Host) (props : list (string * Value))
    (e : Ephemeral) :
  lookupProp "name" props = VStr "wit$datetime" ->
  isStr (lookupProp "type" props) "value" = false ->
  processEntity H (VObj props) e
  = if isStr (lookupProp "typeCheck" props) "interval"
    then Ok (set_interval
               {| Span.grain := lookupProp "grain" props;
                  Span.value := fromDateTimes (fromISO H (lookupProp "from" props))
                                  (fromISO H (lookupProp "to" props)) |} e)
    else Ok e.
Proof.
  intros Hn Ht. unfold processEntity. cbn [getProp res_bind]. rewrite Hn, Ht. reflexivity.
Qed.

(** C3, evaluated where it fails: a payload whose date/time entity is of
    the interval kind ([type] is ["interval"], with [from], [to] and
    [grain]).  Normalisation returns, and neither [interval] nor [moment]
    is set: the branch for intervals tests [entity.typeCheck], a field the
    entity does not have, where the branch before it tests [entity.type]. *)
Theorem interval_entity_sets_no_interval :
  forall H : Host,
    exists wit e,
      normalize H intervalPayload = Ok (wit, e)
      /\ prop intervalEntity "name" = VStr "wit$datetime"
      /\ prop intervalEntity "type" = VStr "interval"
      /\ intent e = VStr "query_summary"
      /\ interval e = None
      /\ moment e = None.
Proof. intros H. eexists _, _. repeat split. Qed.

Lemma prop_orElse_empty (t : Value) (k : string) :
  prop (orElse t (VObj [])) k = prop t k.
Proof.
  unfold orElse. destruct (truthy t) eqn:E; [reflexivity|].
  destruct t; simpl in *; congruence.
Qed.


(** The flags and the sentiment of the facts are those [processTraits]
    computed from the traits of the payload. *)
Lemma normalize_traits (H : Host) (data : Value) (wit : Wit) (e : Ephemeral) :
  normalize H data = Ok (wit, e) ->
  let t := prop data "traits" in
  let g := prop t "wit$greetings" in
  let b := prop t "wit$bye" in
  let s := prop t "wit$sentiment" in
  thanks e = truthy (prop t "wit$thanks")
  /\ greetings e =
       (if truthy g && truthy b
        then greaterThan H (prop g "confidence") (prop b "confidence")
        else truthy g)
  /\ bye e =
       (if truthy g && truthy b
        then negb (greaterThan H (prop g "confidence") (prop b "confidence"))
        else truthy b)
  /\ (truthy s = false -> sentiment e = VStr "neutral")
  /\ (forall first rest, s = VArr (first :: rest) -> sentiment e = prop first "value").
Proof.
  intros E. destruct (normalize_steps H _ _ _ E) as (e1 & e2 & Hw & Ht & Hi & He).
  destruct (withDefaults_fields _ _ Hw) as (_ & _ & _ & Ft).
  apply processTraits_result in Ht; [|rewrite Ft; now apply orElse_notNullish].
  rewrite Ft in Ht. rewrite !prop_orElse_empty in Ht. cbn zeta in Ht.
  destruct Ht as (T1 & T2 & T3 & T4 & T5 & _).
  apply processIntents_frame in Hi. destruct Hi as (I1 & I2 & I3 & I4).
  apply processEntities_frame in He. destruct He as (E1 & E2 & E3 & E4 & _).
  cbn zeta. repeat split.
  - congruence.
  - congruence.
  - congruence.
  - intros Hs. rewrite E4, I4. now apply T4.
  - intros f r Hs. rewrite E4, I4. now apply (T5 f r).
Qed.



(** With equal confidences it is bye that is kept. *)
Lemma greetings_bye_tie :
  exists wit e,
    normalize aHost
      (VObj [ ("traits",
               VObj [ ("wit$greetings", VObj [ ("confidence", VNum (1 # 2)) ]);
                      ("wit$bye", VObj [ ("confidence", VNum (1 # 2)) ]) ]) ])
    = Ok (wit, e)
    /\ greetings e = false /\ bye e = true.
Proof. eexists _, _. repeat split. Qed.




(** A sentiment trait of the shape the interface section gives for traits
    (an object with [confidence] and [value]) is fatal as well: it has no
    entry [0]. *)
Lemma object_sentiment_is_fatal :
  normalize aHost
    (VObj [ ("traits",
             VObj [ ("wit$sentiment",
                     VObj [ ("confidence", VNum (9 # 10)); ("value", VStr "positive") ]) ]) ])
  = Throw TypeError.
Proof. reflexivity. Qed.

(** So are intents that are not a list and an entity that is [null]. *)
Lemma odd_shapes_are_fatal :
  normalize aHost (VObj [ ("intents", VObj []) ]) = Throw TypeError
  /\ normalize aHost (VObj [ ("entities", VObj [ ("item:item", VArr [ VNull ]) ]) ])
     = Throw TypeError
  /\ normalize aHost VNull = Throw TypeError.
Proof. repeat split. Qed.

(** ** More on the entities *)

(** A date/time entity of type ["value"] sets the moment to its grain and
    its parsed value, whatever the facts held before. *)
Theorem datetime_value_entity (H : Host) (entity : Value) (e : Ephemeral) :
  prop entity "name" = VStr "wit$datetime" ->
  prop entity "type" = VStr "value" ->
  exists e',
    processEntity H entity e = Ok e'
    /\ moment e' = Some {| Moment.grain := prop entity "grain";
                           Moment.value := fromISO H (prop entity "value") |}
    /\ interval e' = interval e /\ item e' = item e /\ money e' = money e.
Proof.
  intros Hn Ht. destruct entity; try discriminate Hn. cbn [prop] in *.
  rewrite (datetime_value_sets_moment H props e Hn Ht).
  eexists. split; [reflexivity|]. cbn. auto.
Qed.

Lemma datetime_value_entity_example :
  exists e',
    processEntity aHost dayEntity scaffold = Ok e'
    /\ moment e' = Some {| Moment.grain := VStr "day";
                           Moment.value := fromISO aHost (VStr "2020-06-13T00:00:00.000-07:00") |}.
Proof.
  destruct (datetime_value_entity aHost dayEntity scaffold eq_refl eq_refl)
    as (e' & E & Hm & _).
  exists e'. split; [exact E | exact Hm].
Defined.

(** A generic number entity of type ["value"] supplies the money fact
    when no money fact has been set before it, and is ignored otherwise. *)
Theorem number_entity_is_money_fallback (H : Host) (entity : Value) (e : Ephemeral) :
  prop entity "name" = VStr "wit$number" ->
  prop entity "type" = VStr "value" ->
  processEntity H entity e
  = Ok (match money e with
        | Some _ => e
        | None => set_money {| Money.body := prop entity "body";
                               Money.value := prop entity "value" |} e
        end).
Proof.
  intros Hn Ht. destruct entity; try discriminate Hn. cbn [prop] in *.
  unfold processEntity. cbn [getProp res_bind]. rewrite Hn, Ht.
  destruct (money e); reflexivity.
Qed.

Lemma number_entity_is_money_fallback_example :
  processEntity aHost numberEntity scaffold
  = Ok (set_money {| Money.body := VStr "twenty"; Money.value := VNum 20 |} scaffold).
Proof.
  exact (number_entity_is_money_fallback aHost numberEntity scaffold eq_refl eq_refl).
Defined.

(** ** The driver *)

Section Driver.
Variable H : Host.
Variable jokes : list string.
Variable ephemeral : Ephemeral.
Variable session : Session.t.

(** [transition] is [execute] from the stored state on the emptied message
    list, followed by the three closing assignments. *)
Lemma transition_unfold (fuel : nat) (l : RobinLogic.t) :
  transition H jokes ephemeral session fuel l
  = match execute H jokes ephemeral session fuel (state (RobinLogic.context l)) (silenced l) with
    | (Ok s, l') =>
        (Ok {| messages := RobinLogic.messages l'; actions := RobinLogic.actions l' |},
         settle H s l')
    | (Throw e, l') => (Throw e, l')
    | (Diverge, l') => (Diverge, l')
    end.
Proof.
  unfold transition, bind, resetMessages, getContext, update, silenced, settle; simpl.
  destruct (execute H jokes ephemeral session fuel (state (RobinLogic.context l)) _)
    as [[s|e|] l']; reflexivity.
Qed.
End Driver.

(** ** The rule tables *)

Ltac unfold_rules :=
  unfold init_first_interaction, main_request_help, main_tell_joke, main_who_are_you,
    main_are_you_bot, main_delete_account, main_set_budget, main_query_budget,
    main_query_affordability, main_add_expense, main_query_summary, main_confused,
    delete_account_confirmation, set_budget_set_budget, add_expense_add_expense,
    specify_expense_item, specify_expense_moment, specify_expense_value,
    sayHi, sayWelcome, sayJoke, timeout, thisWeek, dateStartOf, dateEndOf in *;
  unfold bind, ret, say, update, action, getContext, getMessages, lift in *.

Ltac reduce :=
  cbn [fst snd hd tl endsWithBang dropLast String.eqb Ascii.eqb Bool.eqb negb andb orb
       tryRules settled res_bind RobinLogic.messages RobinLogic.actions
       RobinLogic.context] in *.

Ltac split_test :=
  match goal with
  | |- context [if ?c then _ else _] => destruct c eqn:?
  | |- context [match ?c with Some _ => _ | None => _ end] => destruct c eqn:?
  | |- context [match ?c with [] => _ | _ :: _ => _ end] => destruct c eqn:?
  | |- context [match ?c with Instant _ => _ | InvalidDateTime => _ end] => destruct c eqn:?
  | |- context [match ?c with Between _ _ => _ | InvalidInterval => _ end] => destruct c eqn:?
  | |- context [settled ?c] => destruct c eqn:?
  | |- context [match ?c with Ok _ => _ | Throw _ => _ | Diverge => _ end] => destruct c eqn:?
  end.

(** Case analysis on the name of a state, along the tests of [states]. *)
Ltac by_state st :=
  unfold transitionsOf, states in *;
  repeat match goal with
         | |- context [String.eqb st ?s] =>
             let E := fresh "E" in
             destruct (String.eqb st s) eqn:E; cbv beta iota;
             [apply String.eqb_eq in E; subst st|]
         end;
  try match goal with
      | |- context [member st objectPrototype] =>
          destruct (member st objectPrototype) eqn:?; cbv beta iota
      end.

(** The rule [r], unfolded and run on its own. *)
Ltac monad := unfold bind, ret, say, update, action, getContext, getMessages, lift in *.

Ltac simp := repeat (progress (monad; reduce)).

Ltac rule r :=
  try (unfold r; unfold sayHi, sayWelcome, sayJoke, timeout, thisWeek, dateStartOf,
         dateEndOf; simp;
       repeat (split_test; simp)).

Section Tables.
Variable H : Host.
Variable jokes : list string.
Variable ephemeral : Ephemeral.
Variable session : Session.t.

(** One call of [execute] on a state of the table. *)
Lemma execute_step (fuel : nat) (st : string) (ts : list (string * Rule)) :
  transitionsOf H jokes ephemeral session st = Some ts ->
  execute H jokes ephemeral session (S fuel) st
  = tryRules (execute H jokes ephemeral session fuel) st ts.
Proof. intros E. simpl. rewrite E. reflexivity. Qed.

(** One call of [execute], whatever the state. *)
Lemma execute_S (fuel : nat) (st : string) :
  execute H jokes ephemeral session (S fuel) st
  = match transitionsOf H jokes ephemeral session st with
    | Some ts => tryRules (execute H jokes ephemeral session fuel) st ts
    | None => lift (Throw TypeError)
    end.
Proof. reflexivity. Qed.

(** The catch-all rule of [main] always ends the turn. *)
Lemma main_confused_fires (l : RobinLogic.t) :
  exists l1, main_confused ephemeral l = (Ok ["main"], l1).
Proof.
  unfold_rules. destruct (RobinLogic.messages l);
    [destruct (thanks ephemeral), (greetings ephemeral), (bye ephemeral)|]; eauto.
Qed.

(** So the rules of [main] never all decline. *)
Lemma main_never_declines (ts : list (string * Rule)) (l : RobinLogic.t) :
  transitionsOf H jokes ephemeral session "main" = Some ts -> allDecline ts l = None.
Proof.
  intros [= <-]. cbn [allDecline snd].
  repeat match goal with
         | |- context [let (_, _) := main_confused ephemeral ?x in _] =>
             let E := fresh in
             destruct (main_confused_fires x) as [? E]; rewrite E; reflexivity
         | |- context [let (_, _) := ?m in _] =>
             destruct m as [[?|?|] ?]; try reflexivity;
             match goal with
             | |- context [if ?c then _ else _] => destruct c; try reflexivity
             end
         end.
Qed.

(** If the rules of a state all decline, [execute] returns that state. *)
Lemma tryRules_allDecline (recur : string -> M string) (st : string)
    (ts : list (string * Rule)) (l l' : RobinLogic.t) :
  allDecline ts l = Some l' -> tryRules recur st ts l = (Ok st, l').
Proof.
  revert l. induction ts as [|t r IH]; simpl; intros l.
  - intros [= <-]. reflexivity.
  - unfold bind. destruct (snd t l) as [[next| |] l1]; try discriminate.
    destruct (String.eqb (hd "" next) "") eqn:E; try discriminate.
    apply String.eqb_eq in E. rewrite E. simpl. apply IH.
Qed.

(** And the rule that declined last has said one message, and changed
    nothing else. *)
Lemma allDecline_frame (st : string) (ts : list (string * Rule)) (l l' : RobinLogic.t) :
  transitionsOf H jokes ephemeral session st = Some ts ->
  allDecline ts l = Some l' ->
  RobinLogic.context l' = RobinLogic.context l
  /\ RobinLogic.actions l' = RobinLogic.actions l
  /\ exists m, RobinLogic.messages l' = (RobinLogic.messages l ++ [m])%list.
Proof.
  intros Hts. destruct (String.eqb st "main") eqn:Hmain.
  { apply String.eqb_eq in Hmain. subst st.
    rewrite (main_never_declines ts l Hts). discriminate. }
  revert Hts. by_state st; try discriminate.
  all: intros [= <-]; unfold initRules; cbn [allDecline snd].
  all: unfold_rules.
  all: repeat (split_test; reduce).
  all: try discriminate.
  all: intros [= <-]; cbn; eauto.
Qed.
End Tables.

(** ** The staleness check of the deletion dialogue *)

Section Timeout.
Variable H : Host.

(** [timeout] reads the context and leaves the instance alone. *)
Lemma timeout_pure (minutes : Z) (l : RobinLogic.t) :
  snd (timeout H minutes l) = l.
Proof. reflexivity. Qed.

(** An instant that is not in the future never counts as timed out: the
    duration [diffNow] measures is then negative or zero. *)
Lemma timeout_of_past_instant (minutes t : Z) (l : RobinLogic.t) :
  0 <= minutes ->
  t <= now H ->
  lastMessageOn (RobinLogic.context l) = Instant t ->
  fst (timeout H minutes l) = Ok false.
Proof.
  intros Hm Ht Hlast. unfold timeout, bind, getContext, ret, diffNow; simpl.
  rewrite Hlast. f_equal. apply Z.ltb_ge. lia.
Qed.

(** What does count as timed out is an instant more than [minutes] ahead
    of the clock. *)
Lemma timeout_iff_future (minutes t : Z) (l : RobinLogic.t) :
  lastMessageOn (RobinLogic.context l) = Instant t ->
  fst (timeout H minutes l) = Ok true <-> now H + minutes * 60000 < t.
Proof.
  intros Hlast. unfold timeout, bind, getContext, ret, diffNow; simpl.
  rewrite Hlast. split.
  - intros E. injection E as E. apply Z.ltb_lt in E. lia.
  - intros E. f_equal. apply Z.ltb_lt. lia.
Qed.
End Timeout.

(** C1, evaluated where it fails: the confirmation state with a last message
    ten minutes old (more than 3 minutes in the past), and the answer "yes".
    The turn does not abort: it confirms the deletion, clears [isActive] and
    goes to [main] as a confirmed deletion. *)
Theorem stale_confirmation_still_deletes :
  let turn :=
    transition aHost someJokes (justIntent "feedback_positive") aSession 4
      (newLogic staleConfirmation) in
  lastMessageOn staleConfirmation = Instant (now aHost - 600000)
  /\ isActive staleConfirmation = true
  /\ fst (delete_account_confirmation aHost (justIntent "feedback_positive")
            (newLogic staleConfirmation)) = Ok ["main"; "positive"]
  /\ fst turn = Ok {| messages := [Any ROBIN_MESSAGES.accountDeletionConfirmed];
                      actions := [] |}
  /\ state (RobinLogic.context (snd turn)) = "main"
  /\ isActive (RobinLogic.context (snd turn)) = false.
Proof. vm_compute. repeat split. Qed.

(** ** Rules that decline *)

(** C5 as stated fails: in state [set_budget] without a money fact the one
    rule declines, [execute] returns [set_budget], and the rule has said
    the prompt [specifyBudget]. *)
Lemma declining_set_budget_prompts : ~ declining_is_silent.
Proof.
  intros Hclaim.
  specialize (Hclaim aHost someJokes (justIntent "set_budget") aSession "set_budget"
                _ (newLogic (contextIn "set_budget")) _ eq_refl eq_refl).
  discriminate Hclaim.
Qed.

(** C5, amended: when every rule of the rule list of a state returns the
    empty directive, [execute] returns that state, without throwing; the
    context and the actions are as they were, and the message list has
    grown by the one prompt of the rule that declined. *)
Theorem execute_when_all_decline (H : Host) (jokes : list string) (ephemeral : Ephemeral)
    (session : Session.t) (fuel : nat) (st : string) (ts : list (string * Rule))
    (l l' : RobinLogic.t) :
  transitionsOf H jokes ephemeral session st = Some ts ->
  allDecline ts l = Some l' ->
  execute H jokes ephemeral session (S fuel) st l = (Ok st, l')
  /\ RobinLogic.context l' = RobinLogic.context l
  /\ RobinLogic.actions l' = RobinLogic.actions l
  /\ exists m, RobinLogic.messages l' = (RobinLogic.messages l ++ [m])%list.
Proof.
  intros Hts Hd. split.
  - rewrite (execute_step _ _ _ _ _ _ _ Hts). now apply tryRules_allDecline.
  - now apply (allDecline_frame H jokes ephemeral session st ts).
Qed.

Lemma execute_when_all_decline_example :
  execute aHost someJokes (justIntent "set_budget") aSession 1 "set_budget"
    (newLogic (contextIn "set_budget"))
  = (Ok "set_budget",
     {| RobinLogic.messages := [Any ROBIN_MESSAGES.specifyBudget];
        RobinLogic.actions := [];
        RobinLogic.context := contextIn "set_budget" |}).
Proof.
  destruct (execute_when_all_decline aHost someJokes (justIntent "set_budget") aSession 0
              "set_budget" _ (newLogic (contextIn "set_budget")) _ eq_refl eq_refl)
    as [E _].
  exact E.
Defined.

(** ** Replies *)

Section SubMachine.
Variable H : Host.
Variable jokes : list string.
Variable ephemeral : Ephemeral.
Variable session : Session.t.



End SubMachine.


(** ** Adding an expense in one turn *)





(** ** The expense dialogue that never ends *)

(** From [zeroValueLoop], [specify_expense_value] hands over to
    [add_expense] and that state hands back, the instance being the same
    each time. *)
Lemma zero_value_cycle (n : nat) :
  execute aHost someJokes freeCoffee aSession (S (S n)) "specify_expense_value" zeroValueLoop
  = execute aHost someJokes freeCoffee aSession n "specify_expense_value" zeroValueLoop.
Proof. reflexivity. Qed.

Lemma zero_value_never_returns (n : nat) :
  fst (execute aHost someJokes freeCoffee aSession n "specify_expense_value" zeroValueLoop)
  = Diverge
  /\ fst (execute aHost someJokes freeCoffee aSession (S n) "specify_expense_value" zeroValueLoop)
     = Diverge.
Proof.
  induction n as [|n [IH1 IH2]].
  - split; reflexivity.
  - split; [exact IH2|]. rewrite zero_value_cycle. exact IH1.
Qed.

(** The turn of [freeCoffee] from [main] gets into that loop after two
    steps. *)
Lemma zero_value_reaches_loop (n : nat) :
  execute aHost someJokes freeCoffee aSession (S (S n)) "main"
    (silenced (newLogic (contextIn "main")))
  = execute aHost someJokes freeCoffee aSession n "specify_expense_value" zeroValueLoop.
Proof. reflexivity. Qed.

(** C2, evaluated where it fails: in state [main], the facts of "I spent $0
    on coffee today" with intent [add_expense].  Whatever depth the
    recursion of [execute] is allowed, the turn has not returned: the chain
    main, add_expense, specify_expense_value, add_expense, ... comes back to
    [add_expense] with the same facts and the same context. *)
Theorem zero_value_expense_never_ends :
  forall fuel : nat,
    fst (transition aHost someJokes freeCoffee aSession fuel (newLogic (contextIn "main")))
    = Diverge.
Proof.
  intros [|[|n]]; try reflexivity.
  rewrite transition_unfold.
  change (state (RobinLogic.context (newLogic (contextIn "main")))) with "main".
  rewrite zero_value_reaches_loop.
  destruct (zero_value_never_returns n) as [E _].
  destruct (execute aHost someJokes freeCoffee aSession n "specify_expense_value" zeroValueLoop)
    as [[s|e|] l]; simpl in *; congruence.
Qed.

(** ** When the expense dialogue ends *)

(** Booleans that stand for tests on values are split until the goal
    falls. *)
Ltac kill_atom :=
  match goal with
  | H : context [truthy ?v] |- _ =>
      let a := fresh "a" in set (a := truthy v) in *; clearbody a; destruct a
  | H : context [truthyDate ?v] |- _ =>
      let a := fresh "a" in set (a := truthyDate v) in *; clearbody a; destruct a
  | |- context [truthy ?v] =>
      let a := fresh "a" in set (a := truthy v) in *; clearbody a; destruct a
  | |- context [truthyDate ?v] =>
      let a := fresh "a" in set (a := truthyDate v) in *; clearbody a; destruct a
  end.

Ltac solve_bool :=
  cbn in *; first [ congruence | kill_atom; solve_bool ].

Section Settling.
Variable H : Host.
Variable jokes : list string.
Variable ephemeral : Ephemeral.
Variable session : Session.t.

(** Where the rule of [add_expense] goes, and what that says about the
    facts: a slot that is still empty after the rule has filled what it
    could has no usable fact. *)
Lemma add_expense_outcome (l : RobinLogic.t) :
  exists l1,
    (add_expense_add_expense ephemeral l = (Ok ["specify_expense_item!"], l1)
     /\ truthy (item ephemeral) = false)
    \/ (add_expense_add_expense ephemeral l = (Ok ["specify_expense_moment!"], l1)
        /\ moment ephemeral = None
        /\ forall i, interval ephemeral = Some i -> truthyDate (start (Span.value i)) = false)
    \/ (add_expense_add_expense ephemeral l = (Ok ["specify_expense_value!"], l1)
        /\ forall m, money ephemeral = Some m -> truthy (Money.value m) = false)
    \/ add_expense_add_expense ephemeral l = (Ok ["main"; "expense_added"], l1).
Proof.
  unfold add_expense_add_expense. monad.
  destruct (money ephemeral) as [m|] eqn:Em, (moment ephemeral) as [mo|] eqn:Emo,
    (interval ephemeral) as [i|] eqn:Ei.
  all: repeat (split_test; cbn [fst snd RobinLogic.context RobinLogic.messages
                                  RobinLogic.actions] in *).
  all: try (exfalso; solve_bool).
  all: eexists.
  all: first
         [ left; split; [reflexivity|]; solve_bool
         | right; left; split; [reflexivity|]; split; [reflexivity|];
           intros ? [= <-]; solve_bool
         | right; left; split; [reflexivity|]; split; [reflexivity|];
           intros ? [=]
         | right; right; left; split; [reflexivity|]; intros ? [= <-]; solve_bool
         | right; right; left; split; [reflexivity|]; intros ? [=]
         | right; right; right; reflexivity ].
Qed.

(** Facts that are not degenerate stop the expense dialogue: [add_expense]
    either completes the expense or hands over to a state that prompts. *)
Lemma add_expense_settles (fuel : nat) (l : RobinLogic.t) :
  degenerate ephemeral = false ->
  fst (execute H jokes ephemeral session (S (S fuel)) "add_expense" l) <> Diverge.
Proof.
  intros Hgood. unfold degenerate in Hgood.
  rewrite (execute_step H jokes ephemeral session _ "add_expense" _ eq_refl).
  cbn [tryRules snd]. unfold bind at 1.
  destruct (add_expense_outcome l) as [l1 [[-> Hi]|[(-> & Hmo & Hiv)|[[-> Hv]| ->]]]];
    reduce.
  - rewrite (execute_step H jokes ephemeral session _ "specify_expense_item" _ eq_refl).
    cbn [tryRules snd]. unfold specify_expense_item. rewrite Hi. simp. discriminate.
  - rewrite (execute_step H jokes ephemeral session _ "specify_expense_moment" _ eq_refl).
    cbn [tryRules snd]. unfold specify_expense_moment. rewrite Hmo.
    destruct (interval ephemeral) as [i|] eqn:Ei.
    + rewrite Hmo, (Hiv i eq_refl) in Hgood. cbn in Hgood.
      rewrite orb_true_r in Hgood. discriminate.
    + simp. discriminate.
  - rewrite (execute_step H jokes ephemeral session _ "specify_expense_value" _ eq_refl).
    cbn [tryRules snd]. unfold specify_expense_value.
    destruct (money ephemeral) as [m|] eqn:Em.
    + rewrite (Hv m eq_refl) in Hgood. discriminate.
    + simp. discriminate.
  - simp. discriminate.
Qed.

(** So do the states that ask for one slot, and [set_budget]. *)
Lemma dialogue_settles (fuel : nat) (st : string) (l : RobinLogic.t) :
  degenerate ephemeral = false ->
  inDialogue st = true ->
  fst (execute H jokes ephemeral session (S (S (S fuel))) st l) <> Diverge.
Proof.
  intros Hgood Hst.
  destruct (String.eqb st "add_expense") eqn:Ea.
  { apply String.eqb_eq in Ea. subst st. now apply add_expense_settles. }
  unfold inDialogue in Hst. rewrite execute_S. revert Ea.
  by_state st; intros Ea; try discriminate; try (vm_compute in Hst; discriminate Hst).
  all: try (cbn [member] in Hst;
            repeat match goal with
                   | E : String.eqb _ _ = false |- _ => rewrite E in Hst
                   end; discriminate Hst).
  all: cbn [tryRules snd]; unfold_rules; simp.
  all: repeat (split_test; simp).
  all: try discriminate.
  all: now apply add_expense_settles.
Qed.

Lemma main_settles (fuel : nat) (l : RobinLogic.t) :
  degenerate ephemeral = false ->
  fst (execute H jokes ephemeral session (S (S (S fuel))) "main" l) <> Diverge.
Proof.
  intros Hgood.
  rewrite (execute_step H jokes ephemeral session _ "main" _ eq_refl).
  cbn [tryRules snd].
  rule main_request_help. all: rule main_tell_joke. all: rule main_who_are_you.
  all: rule main_are_you_bot. all: rule main_delete_account. all: rule main_set_budget.
  all: rule main_query_budget. all: rule main_query_affordability.
  all: rule main_add_expense. all: rule main_query_summary. all: rule main_confused.
  all: try (cbn [fst]; discriminate).
  all: try (now apply add_expense_settles).
  rewrite (execute_S H jokes ephemeral session _ "set_budget"). unfold transitionsOf, states.
  cbn [String.eqb Ascii.eqb Bool.eqb]. cbv beta iota. cbn [tryRules snd].
  rule set_budget_set_budget; cbn [fst]; discriminate.
Qed.

(** The recursion of [execute] is bounded on facts that are not
    degenerate: from every state it has returned or thrown at depth 4. *)
Theorem execute_settles (fuel : nat) (st : string) (l : RobinLogic.t) :
  degenerate ephemeral = false ->
  fst (execute H jokes ephemeral session (S (S (S (S fuel)))) st l) <> Diverge.
Proof.
  intros Hgood.
  destruct (inDialogue st) eqn:Hd.
  { now apply dialogue_settles. }
  destruct (String.eqb st "main") eqn:Hm.
  { apply String.eqb_eq in Hm. subst st. now apply main_settles. }
  unfold inDialogue in Hd. rewrite execute_S. revert Hd Hm.
  by_state st; intros Hd Hm; try discriminate.
  all: unfold initRules; cbn [tryRules snd].
  all: try rule init_first_interaction.
  all: try rule delete_account_confirmation.
  all: try discriminate.
  all: now apply main_settles.
Qed.
End Settling.

(** The turn of [coffee] from the initial state returns. *)
Lemma execute_settles_example :
  fst (execute aHost someJokes coffee aSession 4 "init" (newLogic (defaultContext aHost)))
  <> Diverge.
Proof.
  exact (execute_settles aHost someJokes coffee aSession 0 "init"
           (newLogic (defaultContext aHost)) eq_refl).
Defined.

(** The facts of [freeCoffee] are degenerate, those of [coffee] are not. *)
Lemma free_coffee_is_degenerate : degenerate freeCoffee = true /\ degenerate coffee = false.
Proof. split; reflexivity. Qed.

(** ** A turn in [main], in full *)

Section MainInFull.
Variable H : Host.
Variable jokes : list string.
Variable ephemeral : Ephemeral.
Variable session : Session.t.


End MainInFull.



(** ** Jokes *)

Section Jokes.
Variable H : Host.
Variable jokes : list string.

(** Past the end of the list the catalogue answers with the fallback. *)
Lemma catalogGet_past_end (index : Z) (fallback : Reply) :
  Z.of_nat (List.length jokes) <= index -> catalogGet jokes index fallback = fallback.
Proof.
  intros Hi. unfold catalogGet.
  destruct (index <? Z.of_nat (List.length jokes)) eqn:E.
  - apply Z.ltb_lt in E. lia.
  - now rewrite andb_false_r.
Qed.

(** Outside [init] and [main] no rule touches the joke counter, however
    the run ends. *)
Lemma beside_main_keeps_jokeCounter (ephemeral : Ephemeral) (session : Session.t)
    (fuel : nat) (st : string) (l : RobinLogic.t) :
  besideMain st = true ->
  jokeCounter (RobinLogic.context (snd (execute H jokes ephemeral session fuel st l)))
  = jokeCounter (RobinLogic.context l).
Proof.
  revert st l. induction fuel as [|n IH]; intros st l Hst; [reflexivity|].
  unfold besideMain in Hst. cbn [execute].
  by_state st; try (vm_compute in Hst; discriminate Hst).
  all: try (cbn [member] in Hst;
            repeat match goal with
                   | E : String.eqb _ _ = false |- _ => rewrite E in Hst
                   end; discriminate Hst).
  all: unfold_rules; simp.
  all: repeat (split_test; simp).
  all: try reflexivity.
  all: rewrite IH by reflexivity; reflexivity.
Qed.

(** From [main] the counter is left alone or moved by one joke. *)
Lemma main_jokeCounter (ephemeral : Ephemeral) (session : Session.t)
    (fuel : nat) (l : RobinLogic.t) :
  let l' := snd (execute H jokes ephemeral session fuel "main" l) in
  jokeCounter (RobinLogic.context l') = jokeCounter (RobinLogic.context l)
  \/ jokeCounter (RobinLogic.context l')
     = Z.min (jokeCounter (RobinLogic.context l) + 1) (Z.of_nat (List.length jokes)).
Proof.
  cbn zeta. destruct fuel as [|n]; [left; reflexivity|].
  rewrite (execute_step H jokes ephemeral session _ "main" _ eq_refl).
  cbn [tryRules snd].
  rule main_request_help. all: rule main_tell_joke. all: rule main_who_are_you.
  all: rule main_are_you_bot. all: rule main_delete_account. all: rule main_set_budget.
  all: rule main_query_budget. all: rule main_query_affordability.
  all: rule main_add_expense. all: rule main_query_summary. all: rule main_confused.
  all: try (left; reflexivity).
  all: try (right; reflexivity).
  all: left; rewrite beside_main_keeps_jokeCounter by reflexivity; reflexivity.
Qed.

(** So it is from every state. *)
Lemma execute_jokeCounter (ephemeral : Ephemeral) (session : Session.t)
    (fuel : nat) (st : string) (l : RobinLogic.t) :
  let l' := snd (execute H jokes ephemeral session fuel st l) in
  jokeCounter (RobinLogic.context l') = jokeCounter (RobinLogic.context l)
  \/ jokeCounter (RobinLogic.context l')
     = Z.min (jokeCounter (RobinLogic.context l) + 1) (Z.of_nat (List.length jokes)).
Proof.
  cbn zeta. destruct (besideMain st) eqn:Hb.
  { left. now apply beside_main_keeps_jokeCounter. }
  destruct (String.eqb st "main") eqn:Hm.
  { apply String.eqb_eq in Hm. subst st. apply main_jokeCounter. }
  destruct fuel as [|n]; [left; reflexivity|].
  cbn [execute]. unfold besideMain in Hb. revert Hb Hm.
  by_state st; intros Hb Hm; try discriminate.
  all: try (left; reflexivity).
  all: unfold initRules; cbn [tryRules snd]; rule init_first_interaction.
  all: match goal with
       | |- context [execute _ _ _ _ ?k "main" ?l1] =>
           let J := fresh "J" in
           destruct (main_jokeCounter ephemeral session k l1) as [J|J];
           cbn zeta in J; rewrite J; [left | right]; reflexivity
       end.
Qed.

End Jokes.

Section AnyTurn.
Variable H : Host.
Variable jokes : list string.

(** A turn moves the joke counter by at most one, and never beyond the end
    of the joke list, whatever the state, the facts and the outcome. *)
Lemma any_turn_jokeCounter (ephemeral : Ephemeral) (session : Session.t)
    (fuel : nat) (l : RobinLogic.t) :
  let j := jokeCounter (RobinLogic.context l) in
  let j' := jokeCounter (RobinLogic.context
                           (snd (transition H jokes ephemeral session fuel l))) in
  j' <= j + 1 /\ j' <= Z.max j (Z.of_nat (List.length jokes)).
Proof.
  cbn zeta. rewrite transition_unfold.
  pose proof (execute_jokeCounter H jokes ephemeral session fuel
                (state (RobinLogic.context l)) (silenced l)) as E.
  cbn zeta in E.
  destruct (execute H jokes ephemeral session fuel _ (silenced l)) as [[s|e|] l1];
    cbn in E |- *; lia.
Qed.

(** A turn in [main] that asks for a joke tells the joke the counter points
    at, or the filler, and moves the counter by one up to the length of the
    list. *)
Lemma joke_turn (ephemeral : Ephemeral) (session : Session.t) (fuel : nat) (c : Context) :
  state c = "main" ->
  intent ephemeral = VStr "tell_joke" ->
  transition H jokes ephemeral session (S fuel) (newLogic c)
  = (Ok {| messages := [catalogGet jokes (jokeCounter c) (Any ROBIN_MESSAGES.doneJoking)];
           actions := [] |},
     settle H "main"
       {| RobinLogic.messages :=
            [catalogGet jokes (jokeCounter c) (Any ROBIN_MESSAGES.doneJoking)];
          RobinLogic.actions := [];
          RobinLogic.context :=
            set_lastJokeOn (Instant (now H))
              (set_jokeCounter (Z.min (jokeCounter c + 1) (Z.of_nat (List.length jokes))) c) |}).
Proof.
  intros Hs Hi. rewrite transition_unfold. cbn [newLogic silenced RobinLogic.context].
  rewrite Hs. rewrite (execute_step H jokes ephemeral session _ "main" _ eq_refl).
  cbn [tryRules snd]. unfold_rules. rewrite Hi. cbn. reflexivity.
Qed.

(** C9: in a conversation that starts in [main] and whose turns all ask for
    a joke, every turn returns; the counter ends at most one higher per
    joke told, and not above the length of the joke list once a joke has
    been told; and every turn on which the counter has reached that length
    answers with the filler [doneJoking] alone. *)
Theorem jokes_saturate (fuel : nat) (turns : list (Ephemeral * Session.t)) (c : Context) :
  state c = "main" ->
  Forall (fun t => intent (fst t) = VStr "tell_joke") turns ->
  exists c' replies,
    converse H jokes (S fuel) turns c = Ok (c', replies)
    /\ state c' = "main"
    /\ List.length replies = List.length turns
    /\ jokeCounter c' <= jokeCounter c + Z.of_nat (List.length turns)
    /\ (turns <> [] -> jokeCounter c' <= Z.of_nat (List.length jokes))
    /\ (jokeCounter c <= Z.of_nat (List.length jokes) ->
        jokeCounter c'
        = Z.min (jokeCounter c + Z.of_nat (List.length turns)) (Z.of_nat (List.length jokes)))
    /\ (forall (k : nat) (r : list Reply),
          nth_error replies k = Some r ->
          Z.of_nat (List.length jokes) <= jokeCounter c + Z.of_nat k ->
          r = [Any ROBIN_MESSAGES.doneJoking]).
Proof.
  intros Hs Hall. revert c Hs.
  induction Hall as [|[e ses] rest Hi _ IH]; intros c Hs.
  - exists c, []. cbn. repeat split; try lia; try congruence.
    intros [|k] r; discriminate.
  - cbn [converse fst snd]. cbn [fst] in Hi. rewrite (joke_turn e ses fuel c Hs Hi).
    set (c1 := RobinLogic.context (settle H "main" _)).
    assert (Hj1 : jokeCounter c1
                  = Z.min (jokeCounter c + 1) (Z.of_nat (List.length jokes))) by reflexivity.
    destruct (IH c1 eq_refl) as (c' & replies & E & Hs' & Hlen & Hle & Hcap & Hmin & Hfill).
    rewrite E. cbn [res_bind fst snd messages].
    eexists _, _. split; [reflexivity|].
    cbn [List.length]. rewrite Hlen. repeat split; try assumption; try lia.
    intros [|k] r.
    + cbn. intros [= <-] Hk. rewrite catalogGet_past_end by lia. reflexivity.
    + cbn [nth_error]. intros Hr Hk. apply (Hfill k r Hr). lia.
Qed.

End AnyTurn.

(** Four requests against a list of two jokes: both jokes, then the filler
    twice, the counter at two. *)
Lemma jokes_saturate_example :
  exists c',
    converse aHost someJokes 1
      [ (justIntent "tell_joke", aSession); (justIntent "tell_joke", aSession);
        (justIntent "tell_joke", aSession); (justIntent "tell_joke", aSession) ]
      (contextIn "main")
    = Ok (c', [ [Variant "first joke"]; [Variant "second joke"];
                [Any ROBIN_MESSAGES.doneJoking]; [Any ROBIN_MESSAGES.doneJoking] ])
    /\ jokeCounter c' = 2.
Proof.
  destruct (jokes_saturate aHost someJokes 0
              [ (justIntent "tell_joke", aSession); (justIntent "tell_joke", aSession);
                (justIntent "tell_joke", aSession); (justIntent "tell_joke", aSession) ]
              (contextIn "main") eq_refl)
    as (c' & replies & E & _ & _ & _ & _ & Hmin & _).
  { repeat constructor. }
  exists c'. split.
  - rewrite E. vm_compute in E. injection E as <- <-. reflexivity.
  - rewrite Hmin; [reflexivity | vm_compute; discriminate].
Defined.

(** ** What the rules leave alone *)

Section Frame.
Variable H : Host.
Variable jokes : list string.
Variable ephemeral : Ephemeral.
Variable session : Session.t.

(** No rule writes the state, the message counter, the time of the last
    message, the name or the time of the last greeting: [execute] leaves
    them as they are, however it ends. *)
Lemma execute_frame (fuel : nat) (st : string) (l : RobinLogic.t) :
  let c := RobinLogic.context l in
  let c' := RobinLogic.context (snd (execute H jokes ephemeral session fuel st l)) in
  state c' = state c /\ messageCounter c' = messageCounter c
  /\ lastMessageOn c' = lastMessageOn c /\ userName c' = userName c
  /\ lastGreetingOn c' = lastGreetingOn c.
Proof.
  cbn zeta. revert st l. induction fuel as [|n IH]; intros st l; [cbn; auto|].
  cbn [execute]. by_state st; unfold initRules; cbn [tryRules snd].
  2: { rule main_request_help. all: rule main_tell_joke. all: rule main_who_are_you.
       all: rule main_are_you_bot. all: rule main_delete_account.
       all: rule main_set_budget. all: rule main_query_budget.
       all: rule main_query_affordability. all: rule main_add_expense.
       all: rule main_query_summary. all: rule main_confused.
       all: try (cbn; auto; fail).
       all: match goal with
            | |- context [execute _ _ _ _ _ ?s ?l1] =>
                destruct (IH s l1) as (? & ? & ? & ? & ?); cbn in *; auto
            end. }
  all: unfold_rules; simp.
  all: repeat (split_test; simp).
  all: try (cbn; auto; fail).
  all: match goal with
       | |- context [execute _ _ _ _ _ ?s ?l1] =>
           destruct (IH s l1) as (? & ? & ? & ? & ?); cbn in *; auto
       end.
Qed.

(** A turn that returns has counted one message, whatever the number of
    epsilon transitions on the way: a counter that is a safe integer is
    one higher.  The turn has stamped the clock; the name and the time of
    the last greeting are as before. *)
Theorem turn_counts_once (fuel : nat) (l l' : RobinLogic.t) (b : Bundle) :
  transition H jokes ephemeral session fuel l = (Ok b, l') ->
  (safeInteger (messageCounter (RobinLogic.context l)) ->
   messageCounter (RobinLogic.context l') = messageCounter (RobinLogic.context l) + 1)
  /\ lastMessageOn (RobinLogic.context l') = Instant (now H)
  /\ userName (RobinLogic.context l') = userName (RobinLogic.context l)
  /\ lastGreetingOn (RobinLogic.context l') = lastGreetingOn (RobinLogic.context l)
  /\ messages b = RobinLogic.messages l' /\ actions b = RobinLogic.actions l'.
Proof.
  rewrite transition_unfold.
  pose proof (execute_frame fuel (state (RobinLogic.context l)) (silenced l)) as F.
  cbn zeta in F.
  destruct (execute H jokes ephemeral session fuel _ (silenced l)) as [[s|e|] l1];
    try discriminate.
  intros [= <- <-]. cbn in F |- *. destruct F as (_ & F2 & _ & F4 & F5).
  split; [intros _; congruence|].
  repeat split; try reflexivity; congruence.
Qed.
End Frame.

(** The first turn of a new user who adds an expense at once goes from
    [init] through [main] and [add_expense]; it counts as one message. *)
Lemma turn_counts_once_example :
  exists b l',
    transition aHost someJokes coffee aSession 3 (newLogic (defaultContext aHost)) = (Ok b, l')
    /\ messageCounter (RobinLogic.context l') = 1
    /\ state (RobinLogic.context l') = "main".
Proof.
  destruct (transition aHost someJokes coffee aSession 3 (newLogic (defaultContext aHost)))
    as [[b|e|] l'] eqn:E; try (vm_compute in E; discriminate E).
  exists b, l'. split; [reflexivity|].
  destruct (turn_counts_once aHost someJokes coffee aSession 3 _ _ _ E) as (T & _).
  split; [apply T; unfold safeInteger; cbn; lia|].
  vm_compute in E. injection E as _ <-. reflexivity.
Defined.

(** ** The orchestrator *)

(** Without text and without voice [queryWit] throws the usage error. *)
Lemma queryWit_nothing_given (R : Robin) (session : Session.t) :
  Session.text session = None ->
  Session.voice session = None ->
  queryWit R session = Throw (UsageError "Either text or voice must be given").
Proof. intros Ht Hv. unfold queryWit. rewrite Ht, Hv. reflexivity. Qed.

(** The copy is a new object. *)
Lemma copy_is_new (heap : gmap loc Context) : heap !! fresh (dom heap) = None.
Proof. apply not_elem_of_dom. apply is_fresh. Qed.

(** C8: [process] answers on every session whose context exists; whatever
    the outcome, every object of the caller's heap, the session's context
    among them, holds afterwards what it held before; a session with
    neither text nor voice ends in the usage error; and the context of a
    result is an object that did not exist before. *)
Theorem process_keeps_callers_context (H : Host) (jokes : list string) (R : Robin)
    (fuel : nat) (heap : gmap loc Context) (session : Session.t) (c : Context) :
  heap !! Session.context session = Some c ->
  exists r heap',
    process H jokes R fuel heap session = Some (r, heap')
    /\ heap' !! Session.context session = Some c
    /\ (forall (l : loc) (c0 : Context), heap !! l = Some c0 -> heap' !! l = Some c0)
    /\ (Session.text session = None -> Session.voice session = None ->
        r = Throw (UsageError "Either text or voice must be given"))
    /\ (forall res, r = Ok res ->
        heap !! Result.context res = None
        /\ Result.context res <> Session.context session).
Proof.
  intros Hc. unfold process. rewrite Hc.
  pose proof (copy_is_new heap) as Hnew.
  set (copy := fresh (dom heap)) in *.
  assert (Hne : forall (l : loc) (c0 : Context), heap !! l = Some c0 -> copy <> l).
  { intros l c0 Hl ->. congruence. }
  assert (Hkeep1 : forall (x : Context) (l : loc) (c0 : Context),
             heap !! l = Some c0 -> <[copy := x]> heap !! l = Some c0).
  { intros x l c0 Hl. rewrite lookup_insert_ne by now apply (Hne l c0). exact Hl. }
  assert (Hkeep2 : forall (x y : Context) (l : loc) (c0 : Context),
             heap !! l = Some c0 -> <[copy := x]> (<[copy := y]> heap) !! l = Some c0).
  { intros x y l c0 Hl. rewrite lookup_insert_ne by now apply (Hne l c0). now apply Hkeep1. }
  assert (Husage : forall r : Res Result.t,
             (forall e, queryWit R session = Throw e -> r = Throw e) ->
             Session.text session = None -> Session.voice session = None ->
             r = Throw (UsageError "Either text or voice must be given")).
  { intros r Hr Ht Hv. apply Hr. now apply queryWit_nothing_given. }
  destruct (queryWit R session) as [data| e |] eqn:Eq; cbn [res_bind].
  - destruct (normalize H data) as [[wit ephemeral]| e |] eqn:En.
    + destruct (transition H jokes ephemeral session fuel _) as [r l] eqn:Et.
      eexists _, _. split; [reflexivity|].
      split; [now apply Hkeep2|]. split; [intros l0 c0; apply Hkeep2|].
      split; [intros Ht Hv; apply Husage; [discriminate|assumption..]|].
      intros res Hres. destruct r; cbn in Hres; try discriminate.
      injection Hres as <-. cbn. split; [exact Hnew | apply (Hne _ c Hc)].
    + eexists _, _. split; [reflexivity|].
      split; [now apply Hkeep1|]. split; [intros l0 c0; apply Hkeep1|].
      split; [intros Ht Hv; apply Husage; [discriminate|assumption..] | discriminate].
    + eexists _, _. split; [reflexivity|].
      split; [now apply Hkeep1|]. split; [intros l0 c0; apply Hkeep1|].
      split; [intros Ht Hv; apply Husage; [discriminate|assumption..] | discriminate].
  - eexists _, _. split; [reflexivity|].
    split; [now apply Hkeep1|]. split; [intros l0 c0; apply Hkeep1|].
    split; [intros Ht Hv; apply Husage; [intros e0 [= <-]; reflexivity|assumption..]
           | discriminate].
  - eexists _, _. split; [reflexivity|].
    split; [now apply Hkeep1|]. split; [intros l0 c0; apply Hkeep1|].
    split; [intros Ht Hv; apply Husage; [discriminate|assumption..] | discriminate].
Qed.

(** A session with neither text nor voice, on that heap. *)
Lemma process_keeps_callers_context_example :
  exists heap',
    process aHost someJokes aRobin 4 aHeap aSessionEmpty
    = Some (Throw (UsageError "Either text or voice must be given"), heap')
    /\ heap' !! 1%positive = Some (contextIn "main").
Proof.
  assert (Hc : aHeap !! Session.context aSessionEmpty = Some (contextIn "main"))
    by (vm_compute; reflexivity).
  destruct (process_keeps_callers_context aHost someJokes aRobin 4
              aHeap aSessionEmpty (contextIn "main") Hc)
    as (r & heap' & E & Hc' & _ & Hu & _).
  exists heap'. rewrite (Hu eq_refl eq_refl) in E. split; [exact E | exact Hc'].
Defined.

(** A session with a text, on [aHeap]: the answer refers to a new object,
    which holds the context after the turn, and the caller's object holds
    what it held. *)
Lemma process_example :
  exists res heap',
    process aHost someJokes aRobin 4 aHeap aSession = Some (Ok res, heap')
    /\ Result.context res <> Session.context aSession
    /\ Result.messages res = [Any ROBIN_MESSAGES.confused]
    /\ heap' !! Session.context aSession = Some (contextIn "main")
    /\ (messageCounter <$> heap' !! Result.context res) = Some 1.
Proof. vm_compute. eexists _, _. repeat split. discriminate. Qed.

(** ** The entity list as a whole *)

Lemma last_cons_option {A : Type} (x : A) (l : list A) :
  last (x :: l) = match last l with Some y => Some y | None => Some x end.
Proof.
  revert x. induction l as [|a l IH]; intros x; [reflexivity|].
  change (last (x :: a :: l)) with (last (a :: l)). rewrite IH.
  destruct (last l); reflexivity.
Qed.

Lemma isStr_eq (v : Value) (s : string) : isStr v s = true -> v = VStr s.
Proof.
  destruct v; simpl; try discriminate. intros E. apply String.eqb_eq in E. now subst.
Qed.

(** [processIntents] leaves the facts of the entities alone. *)
Lemma processIntents_facts (wit : Wit) (e e' : Ephemeral) :
  processIntents wit e = Ok e' ->
  item e' = item e /\ money e' = money e /\ moment e' = moment e
  /\ interval e' = interval e.
Proof.
  unfold processIntents. destruct (intents wit); try discriminate.
  destruct (res_mapM _ items); cbn [res_bind]; try discriminate.
  intros [= <-]. auto.
Qed.

Section EntityList.
Variable H : Host.

(** What one entity does to the money fact, the item and the moment. *)
Lemma processEntity_facts (entity : Value) (e e' : Ephemeral) :
  processEntity H entity e = Ok e' ->
  money e' =
    (if isEntity "wit$amount_of_money" entity then Some (moneyOf entity)
     else if isEntity "wit$number" entity then
       match money e with Some m => Some m | None => Some (moneyOf entity) end
     else money e)
  /\ item e' = (if isEntity "item" entity then prop entity "value" else item e)
  /\ moment e' =
       (if isEntity "wit$datetime" entity then Some (momentOf H entity) else moment e).
Proof.
  unfold processEntity, isEntity, moneyOf, momentOf.
  destruct entity; cbn [getProp res_bind prop]; try discriminate.
  1-4: intros [= <-]; cbn; auto.
  destruct (isStr (lookupProp "name" props) "item") eqn:E1.
  { apply isStr_eq in E1. rewrite E1. cbn.
    destruct (isStr (lookupProp "type" props) "value"); intros [= <-]; cbn; auto. }
  destruct (isStr (lookupProp "name" props) "wit$amount_of_money") eqn:E2.
  { apply isStr_eq in E2. rewrite E2. cbn.
    destruct (isStr (lookupProp "type" props) "value"); intros [= <-]; cbn; auto. }
  destruct (isStr (lookupProp "name" props) "wit$number") eqn:E3.
  { apply isStr_eq in E3. rewrite E3. cbn.
    destruct (isStr (lookupProp "type" props) "value"), (money e) eqn:Em;
      intros [= <-]; cbn; rewrite ?Em; auto. }
  destruct (isStr (lookupProp "name" props) "wit$datetime") eqn:E4.
  { cbn.
    destruct (isStr (lookupProp "type" props) "value");
      [|destruct (isStr (lookupProp "typeCheck" props) "interval")];
      intros [= <-]; cbn; auto. }
  cbn. intros [= <-]. auto.
Qed.

(** Over a list of entities: an amount of money beats a number wherever
    the two stand; of several amounts the last one counts, of several
    numbers the first one. *)
Lemma money_of_entities (entities : list Value) (e e' : Ephemeral) :
  res_foldM (processEntity H) entities e = Ok e' ->
  money e' =
    match last (List.filter (isEntity "wit$amount_of_money") entities) with
    | Some x => Some (moneyOf x)
    | None =>
        match money e with
        | Some m => Some m
        | None => option_map moneyOf (head (List.filter (isEntity "wit$number") entities))
        end
    end.
Proof.
  revert e. induction entities as [|x r IH]; intros e.
  - intros [= <-]. cbn. destruct (money e); reflexivity.
  - cbn [res_foldM List.filter].
    destruct (processEntity H x e) as [e1| |] eqn:E1; cbn [res_bind]; try discriminate.
    intros E. apply IH in E. rewrite E. clear E IH.
    apply processEntity_facts in E1. destruct E1 as (Hm & _). rewrite Hm. clear Hm.
    destruct (isEntity "wit$amount_of_money" x) eqn:Ea.
    + rewrite last_cons_option.
      destruct (last (List.filter (isEntity "wit$amount_of_money") r)); reflexivity.
    + destruct (last (List.filter (isEntity "wit$amount_of_money") r)); [reflexivity|].
      destruct (isEntity "wit$number" x) eqn:En; [|reflexivity].
      destruct (money e); reflexivity.
Qed.

(** Of several items, and of several date/time values, the last one
    counts. *)
Lemma item_and_moment_of_entities (entities : list Value) (e e' : Ephemeral) :
  res_foldM (processEntity H) entities e = Ok e' ->
  item e' = match last (List.filter (isEntity "item") entities) with
            | Some x => prop x "value"
            | None => item e
            end
  /\ moment e' = match last (List.filter (isEntity "wit$datetime") entities) with
                 | Some x => Some (momentOf H x)
                 | None => moment e
                 end.
Proof.
  revert e. induction entities as [|x r IH]; intros e.
  - intros [= <-]. cbn. auto.
  - cbn [res_foldM List.filter].
    destruct (processEntity H x e) as [e1| |] eqn:E1; cbn [res_bind]; try discriminate.
    intros E. apply IH in E. destruct E as [Ei Em]. rewrite Ei, Em. clear Ei Em IH.
    apply processEntity_facts in E1. destruct E1 as (_ & Hi & Hm). rewrite Hi, Hm.
    split.
    + destruct (isEntity "item" x); [rewrite last_cons_option|];
        destruct (last (List.filter (isEntity "item") r)); reflexivity.
    + destruct (isEntity "wit$datetime" x); [rewrite last_cons_option|];
        destruct (last (List.filter (isEntity "wit$datetime") r)); reflexivity.
Qed.

(** The facts of the entities after a normalisation that returns, from
    the flattened entity list. *)
Lemma normalize_entities (data : Value) (wit : Wit) (e : Ephemeral) :
  normalize H data = Ok (wit, e) ->
  exists entities,
    flattenEntities wit = Ok entities
    /\ exists e0,
        res_foldM (processEntity H) entities e0 = Ok e
        /\ item e0 = VUndefined /\ money e0 = None /\ moment e0 = None.
Proof.
  intros E. destruct (normalize_steps H _ _ _ E) as (e1 & e2 & Hw & Ht & Hi & He).
  destruct (withDefaults_fields _ _ Hw) as (_ & _ & _ & Ft).
  apply processTraits_result in Ht; [|rewrite Ft; now apply orElse_notNullish].
  cbn zeta in Ht. destruct Ht as (_ & _ & _ & _ & _ & _ & T1 & T2 & T3 & _).
  apply processIntents_facts in Hi. destruct Hi as (I1 & I2 & I3 & _).
  unfold processEntities in He.
  destruct (flattenEntities wit) as [entities| |]; cbn [res_bind] in He; try discriminate.
  exists entities. split; [reflexivity|]. exists e2. split; [exact He|].
  rewrite I1, I2, I3, T1, T2, T3. auto.
Qed.

(** The money fact of a payload: the last amount of money among its
    entities; without any, the first number; without either, none. *)
Theorem money_precedence (data : Value) (wit : Wit) (e : Ephemeral) :
  normalize H data = Ok (wit, e) ->
  exists entities,
    flattenEntities wit = Ok entities
    /\ money e =
         match last (List.filter (isEntity "wit$amount_of_money") entities) with
         | Some x => Some (moneyOf x)
         | None => option_map moneyOf (head (List.filter (isEntity "wit$number") entities))
         end.
Proof.
  intros E. destruct (normalize_entities _ _ _ E) as (entities & Hf & e0 & He & _ & Hm & _).
  exists entities. split; [exact Hf|].
  rewrite (money_of_entities entities e0 e He), Hm. reflexivity.
Qed.

(** The item and the moment of a payload: those of the last item entity
    and of the last date/time entity of type ["value"]. *)
Theorem last_entity_wins (data : Value) (wit : Wit) (e : Ephemeral) :
  normalize H data = Ok (wit, e) ->
  exists entities,
    flattenEntities wit = Ok entities
    /\ item e = match last (List.filter (isEntity "item") entities) with
                | Some x => prop x "value"
                | None => VUndefined
                end
    /\ moment e = option_map (momentOf H) (last (List.filter (isEntity "wit$datetime") entities)).
Proof.
  intros E. destruct (normalize_entities _ _ _ E) as (entities & Hf & e0 & He & Hi & _ & Hm).
  exists entities. split; [exact Hf|].
  destruct (item_and_moment_of_entities entities e0 e He) as [Ei Em].
  rewrite Ei, Em, Hi, Hm.
  destruct (last (List.filter (isEntity "wit$datetime") entities)); auto.
Qed.
End EntityList.

(** "twenty or thirty, five dollars": normalisation returns, and the
    amount counts although it comes last. *)
Lemma money_precedence_example :
  exists wit e,
    normalize aHost numbersAndAmount = Ok (wit, e)
    /\ exists entities,
        flattenEntities wit = Ok entities
        /\ money e =
             match last (List.filter (isEntity "wit$amount_of_money") entities) with
             | Some x => Some (moneyOf x)
             | None =>
                 option_map moneyOf (head (List.filter (isEntity "wit$number") entities))
             end.
Proof.
  destruct (normalize aHost numbersAndAmount) as [[wit e]| |] eqn:E;
    try (vm_compute in E; discriminate E).
  exists wit, e. split; [reflexivity|].
  exact (money_precedence aHost numbersAndAmount wit e E).
Defined.

(** Two days named in one message: normalisation returns, and the
    second day is the moment. *)
Lemma last_entity_wins_example :
  exists wit e,
    normalize aHost twoDays = Ok (wit, e)
    /\ exists entities,
        flattenEntities wit = Ok entities
        /\ item e = match last (List.filter (isEntity "item") entities) with
                    | Some x => prop x "value"
                    | None => VUndefined
                    end
        /\ moment e
           = option_map (momentOf aHost)
               (last (List.filter (isEntity "wit$datetime") entities)).
Proof.
  destruct (normalize aHost twoDays) as [[wit e]| |] eqn:E;
    try (vm_compute in E; discriminate E).
  exists wit, e. split; [reflexivity|].
  exact (last_entity_wins aHost twoDays wit e E).
Defined.

(** ** The intent of a payload *)

(** The intent of a turn is the name of the first entry of [intents],
    and the empty string when there is no entry or the first entry has no
    name to speak of; the entries after the first are never consulted. *)
Theorem intent_is_first_name (H : Host) (data : Value) (wit : Wit) (e : Ephemeral) :
  normalize H data = Ok (wit, e) ->
  exists items,
    intents wit = VArr items
    /\ intent e = orElse (prop (hd VUndefined items) "name") (VStr "").
Proof.
  intros E. destruct (normalize_steps H _ _ _ E) as (e1 & e2 & _ & _ & Hi & He).
  apply processEntities_frame in He. destruct He as (_ & _ & _ & _ & ->).
  unfold processIntents in Hi. destruct (intents wit) as [| | | | |items|]; try discriminate.
  exists items. split; [reflexivity|].
  destruct items as [|i r]; cbn [res_mapM res_bind hd] in Hi.
  - injection Hi as <-. reflexivity.
  - destruct i; cbn [getProp res_bind] in Hi; try discriminate;
      destruct (res_mapM _ r); cbn [res_bind] in Hi; try discriminate;
      injection Hi as <-; reflexivity.
Qed.

(** A first intent without a name leaves the turn without intent, although
    the second one is named. *)
Lemma intent_is_first_name_example :
  exists wit e,
    normalize aHost unnamedFirst = Ok (wit, e)
    /\ exists items,
        intents wit = VArr items
        /\ intent e = orElse (prop (hd VUndefined items) "name") (VStr "").
Proof.
  destruct (normalize aHost unnamedFirst) as [[wit e]| |] eqn:E;
    try (vm_compute in E; discriminate E).
  exists wit, e. split; [reflexivity|].
  exact (intent_is_first_name aHost unnamedFirst wit e E).
Defined.

(** ** A state that is not in the table *)

Section OutsideTheTable.
Variable H : Host.
Variable jokes : list string.
Variable ephemeral : Ephemeral.
Variable session : Session.t.

(** A context whose state is none of the eight names runs as a new
    user's, from [init], unless the name is one that every object
    inherits: then the lookup finds something that cannot be iterated, and
    the turn throws before any rule has run. *)
Theorem state_outside_table (fuel : nat) (st : string) (l : RobinLogic.t) :
  member st stateNames = false ->
  execute H jokes ephemeral session (S fuel) st l
  = if member st objectPrototype then (Throw TypeError, l)
    else execute H jokes ephemeral session (S fuel) "init" l.
Proof.
  intros Hm. cbn [member stateNames] in Hm.
  repeat (apply orb_false_iff in Hm; destruct Hm as [? Hm]).
  rewrite !execute_S. unfold transitionsOf, states.
  repeat match goal with
         | E : String.eqb _ _ = false |- _ => rewrite E; clear E
         | E : String.eqb _ _ = false |- _ => rewrite String.eqb_sym in E; rewrite E; clear E
         end.
  cbn [String.eqb Ascii.eqb Bool.eqb]. cbv beta iota.
  destruct (member st objectPrototype); [reflexivity|].
  unfold initRules. cbn [tryRules snd]. unfold init_first_interaction, sayHi, sayWelcome.
  simp. split_test; simp; reflexivity.
Qed.
End OutsideTheTable.

(** A stored state ["toString"] makes every turn throw; a stored state
    ["paused"] starts over. *)
Lemma state_outside_table_example :
  execute aHost someJokes (justIntent "request_help") aSession 2 "toString"
    (newLogic (contextIn "toString"))
  = (Throw TypeError, newLogic (contextIn "toString"))
  /\ execute aHost someJokes (justIntent "request_help") aSession 2 "paused"
       (newLogic (contextIn "paused"))
     = execute aHost someJokes (justIntent "request_help") aSession 2 "init"
         (newLogic (contextIn "paused")).
Proof.
  split.
  - exact (state_outside_table aHost someJokes (justIntent "request_help") aSession 1
             "toString" (newLogic (contextIn "toString")) eq_refl).
  - exact (state_outside_table aHost someJokes (justIntent "request_help") aSession 1
             "paused" (newLogic (contextIn "paused")) eq_refl).
Defined.

(** ** What a turn can change *)

Section Invariants.
Variable H : Host.
Variable jokes : list string.
Variable ephemeral : Ephemeral.
Variable session : Session.t.

(** No rule outside [delete_account] writes [isActive]: a run that
    changes it started there, with the intent [feedback_positive]. *)
Lemma isActive_elsewhere (fuel : nat) (st : string) (l : RobinLogic.t) :
  let r := execute H jokes ephemeral session fuel st l in
  isActive (RobinLogic.context (snd r)) = isActive (RobinLogic.context l)
  \/ (st = "delete_account"
      /\ isStr (intent ephemeral) "feedback_positive" = true
      /\ isActive (RobinLogic.context (snd r)) = false
      /\ fst r = Ok "main").
Proof.
  cbn zeta. revert st l. induction fuel as [|n IH]; intros st l; [cbn; auto|].
  cbn [execute]. by_state st; unfold initRules; cbn [tryRules snd].
  2: { rule main_request_help. all: rule main_tell_joke. all: rule main_who_are_you.
       all: rule main_are_you_bot. all: rule main_delete_account.
       all: rule main_set_budget. all: rule main_query_budget.
       all: rule main_query_affordability. all: rule main_add_expense.
       all: rule main_query_summary. all: rule main_confused.
       all: try (cbn; auto; fail).
       all: match goal with
            | |- context [execute _ _ _ _ _ ?s ?l1] =>
                destruct (IH s l1) as [IHe | (IHe & _)]; [cbn in *; auto | discriminate IHe]
            end. }
  all: unfold_rules; simp.
  all: repeat (split_test; simp).
  all: try (cbn; auto; fail).
  all: try (right; cbn; auto; fail).
  all: match goal with
       | |- context [execute _ _ _ _ _ ?s ?l1] =>
           destruct (IH s l1) as [IHe | (IHe & _)]; [cbn in *; auto | discriminate IHe]
       end.
Qed.

(** The account is deactivated by one rule only, the confirmation of
    [delete_account].  Wherever a run of [execute] starts and however it
    ends, [isActive] is [false] afterwards when the run started in
    [delete_account] with the intent [feedback_positive] and [timeout(3)]
    answered no; in every other case it is as before. *)
Theorem deactivation_needs_confirmation (fuel : nat) (st : string) (l : RobinLogic.t) :
  let r := execute H jokes ephemeral session (S fuel) st l in
  isActive (RobinLogic.context (snd r))
  = if String.eqb st "delete_account"
       && isStr (intent ephemeral) "feedback_positive"
       && negb (timedOut H 3 l)
    then false
    else isActive (RobinLogic.context l).
Proof.
  cbn zeta. destruct (String.eqb st "delete_account") eqn:Es.
  - apply String.eqb_eq in Es. subst st.
    rewrite (execute_step H jokes ephemeral session _ "delete_account" _ eq_refl).
    cbn [tryRules snd andb]. unfold delete_account_confirmation, timedOut, timeout. simp.
    destruct (match diffNow H (lastMessageOn (RobinLogic.context l)) with
              | Some ms => 3 * 60000 <? ms
              | None => false
              end); simp; rewrite ?andb_false_r; [reflexivity|].
    destruct (isStr (intent ephemeral) "feedback_positive"); simp; [reflexivity|].
    destruct (isStr (intent ephemeral) "feedback_negative"); simp; reflexivity.
  - cbn [andb].
    destruct (isActive_elsewhere (S fuel) st l) as [E | (E & _)]; [exact E|].
    subst st. discriminate Es.
Qed.


End Invariants.

(** "yes" to the confirmation: the account is deactivated when the
    question was asked just now, and is not when the last message is dated
    more than three minutes ahead of the clock, where [timeout(3)] answers
    yes. *)
Lemma deactivation_needs_confirmation_example :
  isActive
    (RobinLogic.context
       (snd (execute aHost someJokes (justIntent "feedback_positive") aSession 1
               "delete_account" (newLogic (contextIn "delete_account")))))
  = false
  /\ isActive
       (RobinLogic.context
          (snd (execute aHost someJokes (justIntent "feedback_positive") aSession 1
                  "delete_account" (newLogic datedAhead))))
     = true.
Proof.
  split.
  - exact (deactivation_needs_confirmation aHost someJokes (justIntent "feedback_positive")
             aSession 0 "delete_account" (newLogic (contextIn "delete_account"))).
  - exact (deactivation_needs_confirmation aHost someJokes (justIntent "feedback_positive")
             aSession 0 "delete_account" (newLogic datedAhead)).
Defined.

(** ** Turns in [main] *)

Section MainTurns.
Variable H : Host.
Variable jokes : list string.
Variable ephemeral : Ephemeral.
Variable session : Session.t.

Ltac main_rules :=
  unfold main_request_help, main_tell_joke, main_who_are_you, main_are_you_bot,
    main_delete_account, main_set_budget, main_query_budget, main_query_affordability,
    main_add_expense, main_query_summary, main_confused.

(** A turn in [main] whose intent is none of the ten: every rule but the
    last declines, and the last one says one thing, by precedence thanks,
    greeting, goodbye, confusion; state and context stay as they are. *)
Theorem small_talk (fuel : nat) (l : RobinLogic.t) :
  existsb (isStr (intent ephemeral)) knownIntents = false ->
  RobinLogic.messages l = [] ->
  execute H jokes ephemeral session (S fuel) "main" l
  = (Ok "main", said (smallTalk ephemeral) l).
Proof.
  intros Hk Hm. cbn [existsb knownIntents] in Hk.
  repeat (apply orb_false_iff in Hk; destruct Hk as [? Hk]).
  rewrite (execute_step H jokes ephemeral session _ "main" _ eq_refl).
  cbn [tryRules snd]. main_rules.
  repeat match goal with E : isStr _ _ = false |- _ => rewrite E; clear E end.
  simp. rewrite Hm. unfold smallTalk, said.
  destruct (thanks ephemeral), (greetings ephemeral), (bye ephemeral); simp; reflexivity.
Qed.

(** Asked whether something is affordable without an amount, Robin asks
    for the amount and does not consult the ledger: the turn is the same
    whatever the ledger would answer. *)
Theorem affordability_needs_amount (fuel : nat) (l : RobinLogic.t) :
  isStr (intent ephemeral) "query_affordability" = true ->
  money ephemeral = None ->
  execute H jokes ephemeral session (S fuel) "main" l
  = (Ok "main", said (Any ROBIN_MESSAGES.specifyAffordabilityValue) l).
Proof.
  intros Hi Hm. apply isStr_eq in Hi.
  rewrite (execute_step H jokes ephemeral session _ "main" _ eq_refl).
  cbn [tryRules snd]. main_rules. rewrite Hi, Hm.
  cbn [isStr String.eqb Ascii.eqb Bool.eqb negb present]. simp.
  unfold said. destruct (RobinLogic.messages l); simp; reflexivity.
Qed.

(** A summary asked for a moment that is no date never replies: the
    interval built from it is invalid, and the turn throws, its context
    untouched; when the ledger answers, the error is the [TypeError] of
    reading the start of the interval. *)
Theorem summary_of_invalid_date (fuel : nat) (l : RobinLogic.t) (m : Moment.t) :
  isStr (intent ephemeral) "query_summary" = true ->
  interval ephemeral = None ->
  moment ephemeral = Some m ->
  Moment.value m = InvalidDateTime ->
  exists err,
    execute H jokes ephemeral session (S fuel) "main" l = (Throw err, l)
    /\ (forall expenses,
          Session.queryExpenses session InvalidInterval = Fulfilled expenses ->
          err = TypeError).
Proof.
  intros Hi Hv Hm Hd. apply isStr_eq in Hi.
  rewrite (execute_step H jokes ephemeral session _ "main" _ eq_refl).
  cbn [tryRules snd]. main_rules. rewrite Hi, Hv, Hm.
  unfold dateStartOf, dateEndOf. rewrite Hd.
  cbn [isStr String.eqb Ascii.eqb Bool.eqb negb present]. simp.
  cbn [fromDateTimes bounds].
  destruct (Session.queryExpenses session InvalidInterval) as [expenses|err]; simp.
  - exists TypeError. destruct expenses; cbn [bounds]; simp; split; auto.
  - exists err. split; [reflexivity|]. discriminate.
Qed.
End MainTurns.

(** "thanks, bye" in [main]: the thanks are answered, the goodbye is
    not. *)
Lemma small_talk_example :
  execute aHost someJokes thanksAndBye aSession 1 "main" (newLogic (contextIn "main"))
  = (Ok "main", said (Any ROBIN_MESSAGES.thanks) (newLogic (contextIn "main"))).
Proof.
  exact (small_talk aHost someJokes thanksAndBye aSession 0 (newLogic (contextIn "main"))
           eq_refl eq_refl).
Defined.

(** The question without an amount, asked while the ledger is out of
    reach. *)
Lemma affordability_needs_amount_example :
  execute aHost someJokes (justIntent "query_affordability") aSessionOffline 1 "main"
    (newLogic (contextIn "main"))
  = (Ok "main",
     said (Any ROBIN_MESSAGES.specifyAffordabilityValue) (newLogic (contextIn "main"))).
Proof.
  exact (affordability_needs_amount aHost someJokes (justIntent "query_affordability")
           aSessionOffline 0 (newLogic (contextIn "main")) eq_refl eq_refl).
Defined.

(** The summary of a day that is none, with a ledger that answers. *)
Lemma summary_of_invalid_date_example :
  execute aHost someJokes summaryOfNoDay aSession 1 "main" (newLogic (contextIn "main"))
  = (Throw TypeError, newLogic (contextIn "main")).
Proof.
  destruct (summary_of_invalid_date aHost someJokes summaryOfNoDay aSession 0
              (newLogic (contextIn "main"))
              {| Moment.grain := VStr "day"; Moment.value := InvalidDateTime |}
              eq_refl eq_refl eq_refl eq_refl) as (err & E & Ht).
  rewrite (Ht [] eq_refl) in E. exact E.
Defined.

(** ** The first turn *)

Section FirstTurn.
Variable H : Host.
Variable jokes : list string.
Variable ephemeral : Ephemeral.
Variable session : Session.t.

Ltac grown :=
  first
    [ exists []; split;
      [rewrite app_nil_r; first [reflexivity | assumption | congruence] | intros []]
    | eexists; split;
      [ rewrite <- ?app_assoc; reflexivity
      | cbn; unfold catalogGet;
        repeat match goal with
               | |- context [if ?c then _ else _] => destruct c
               end;
        intuition discriminate ] ].

Ltac unsaid :=
  first
    [ assumption
    | congruence
    | let X := fresh in
      intros X; repeat (apply app_eq_nil in X; destruct X as [X ?]); discriminate ].

(** Once something has been said, a run that does not start in
    [delete_account] only adds replies, none of them the confused one. *)
Lemma no_confusion_after_a_reply (fuel : nat) (st : string) (l : RobinLogic.t) :
  st <> "delete_account" ->
  RobinLogic.messages l <> [] ->
  exists more,
    RobinLogic.messages (snd (execute H jokes ephemeral session fuel st l))
    = (RobinLogic.messages l ++ more)%list
    /\ ~ In (Any ROBIN_MESSAGES.confused) more.
Proof.
  revert st l. induction fuel as [|n IH]; intros st l Hst Hne; [cbn; grown|].
  cbn [execute]. by_state st; try congruence; unfold initRules; cbn [tryRules snd].
  2: { rule main_request_help. all: rule main_tell_joke. all: rule main_who_are_you.
       all: rule main_are_you_bot. all: rule main_delete_account.
       all: rule main_set_budget. all: rule main_query_budget.
       all: rule main_query_affordability. all: rule main_add_expense.
       all: rule main_query_summary. all: rule main_confused.
       all: try (exfalso; unsaid; fail).
       all: try (cbn; grown; fail).
       all: match goal with
            | |- context [execute _ _ _ _ _ ?s ?l1] =>
                destruct (IH s l1) as (more & Em & Hn);
                  [ discriminate
                  | cbn; unsaid
                  | cbn in Em |- *; rewrite Em; eexists; split;
                    [ rewrite <- ?app_assoc; reflexivity
                    | rewrite ?in_app_iff; cbn; intuition discriminate ] ]
            end. }
  all: unfold_rules; simp.
  all: repeat (split_test; simp).
  all: try (cbn; grown; fail).
  all: match goal with
       | |- context [execute _ _ _ _ _ ?s ?l1] =>
           destruct (IH s l1) as (more & Em & Hn);
             [ discriminate
             | cbn; unsaid
             | cbn in Em |- *; rewrite Em; eexists; split;
               [ rewrite <- ?app_assoc; reflexivity
               | rewrite ?in_app_iff; cbn; intuition discriminate ] ]
       end.
Qed.

(** The turn of a context in [init]: whatever was asked and however the
    turn ends, the replies begin with the greeting and the welcome, and
    the confused reply is not among those that follow. *)
Theorem first_turn_is_never_confused (fuel : nat) (l : RobinLogic.t) :
  state (RobinLogic.context l) = "init" ->
  exists more,
    RobinLogic.messages (snd (transition H jokes ephemeral session (S fuel) l))
    = greeting (RobinLogic.context l) :: Any ROBIN_MESSAGES.welcome :: more
    /\ ~ In (Any ROBIN_MESSAGES.confused) more.
Proof.
  intros Hs. rewrite transition_unfold, Hs.
  rewrite (execute_step H jokes ephemeral session _ "init" _ eq_refl).
  unfold initRules. cbn [tryRules snd]. unfold init_first_interaction, sayHi, sayWelcome.
  unfold greeting, silenced. simp.
  destruct (negb (String.eqb (userName (RobinLogic.context l)) "")); simp.
  all: match goal with
       | |- context [execute _ _ _ _ _ ?s ?l1] =>
           destruct (no_confusion_after_a_reply fuel s l1) as (more & Em & Hn);
             [ discriminate | cbn; discriminate | ];
             exists more; split; [|exact Hn];
             destruct (execute H jokes ephemeral session fuel s l1) as [[s'|e|] l'];
             cbn in Em |- *; exact Em
       end.
Qed.
End FirstTurn.

(** A new user who only says thanks is greeted and welcomed, and thanked
    by nobody. *)
Lemma first_turn_is_never_confused_example :
  exists more,
    RobinLogic.messages
      (snd (transition aHost someJokes thanksAndBye aSession 2 (newLogic (defaultContext aHost))))
    = Any ROBIN_MESSAGES.genericGreeting :: Any ROBIN_MESSAGES.welcome :: more
    /\ ~ In (Any ROBIN_MESSAGES.confused) more.
Proof.
  exact (first_turn_is_never_confused aHost someJokes thanksAndBye aSession 1
           (newLogic (defaultContext aHost)) eq_refl).
Defined.

(** ** Dialogues over several turns *)

Section Dialogues.
Variable H : Host.
Variable jokes : list string.










End Dialogues.



(** ** Where a turn comes to rest *)

Section Resting.
Variable H : Host.
Variable jokes : list string.
Variable ephemeral : Ephemeral.
Variable session : Session.t.

(** Whatever the state a run starts from, known or not, the state it
    returns is one of six: never [init], never [add_expense], and never a
    name that is not in the table. *)
Theorem execute_rests (fuel : nat) (st : string) (l : RobinLogic.t) (s : string) :
  fst (execute H jokes ephemeral session fuel st l) = Ok s ->
  member s restingStates = true.
Proof.
  revert st l s. induction fuel as [|n IH]; intros st l s; [cbn; discriminate|].
  cbn [execute]. by_state st; unfold initRules; cbn [tryRules snd].
  2: { rule main_request_help. all: rule main_tell_joke. all: rule main_who_are_you.
       all: rule main_are_you_bot. all: rule main_delete_account.
       all: rule main_set_budget. all: rule main_query_budget.
       all: rule main_query_affordability. all: rule main_add_expense.
       all: rule main_query_summary. all: rule main_confused.
       all: try (cbn; discriminate).
       all: try (cbn; intros [= <-]; reflexivity).
       all: apply IH. }
  all: unfold_rules; simp.
  all: repeat (split_test; simp).
  all: try (cbn; discriminate).
  all: try (cbn; intros [= <-]; reflexivity).
  all: apply IH.
Qed.
End Resting.

(** A new user's first request for help ends in [main]. *)
Lemma execute_rests_example :
  fst (execute aHost someJokes (justIntent "request_help") aSession 2 "init"
         (newLogic (defaultContext aHost)))
  = Ok "main"
  /\ member "main" restingStates = true.
Proof.
  split; [reflexivity|].
  exact (execute_rests aHost someJokes (justIntent "request_help") aSession 2 "init"
           (newLogic (defaultContext aHost)) "main" eq_refl).
Defined.

(** ** Greeting or goodbye *)

(** After normalisation a turn is never both a greeting and a goodbye:
    when both traits are there, the comparison of their confidences
    switches one of the two flags off. *)
Theorem greeting_excludes_bye (H : Host) (data : Value) (wit : Wit) (e : Ephemeral) :
  normalize H data = Ok (wit, e) ->
  greetings e && bye e = false.
Proof.
  intros E. apply normalize_traits in E. cbn zeta in E.
  destruct E as (_ & -> & -> & _).
  destruct (truthy (prop (prop data "traits") "wit$greetings")),
           (truthy (prop (prop data "traits") "wit$bye")); cbn; try reflexivity.
  destruct (greaterThan H _ _); reflexivity.
Qed.

(** "hello, goodbye". *)
Lemma greeting_excludes_bye_example :
  exists wit e,
    normalize aHost helloGoodbye = Ok (wit, e) /\ greetings e && bye e = false.
Proof.
  destruct (normalize aHost helloGoodbye) as [[wit e]| |] eqn:E;
    try (vm_compute in E; discriminate E).
  exists wit, e. split; [reflexivity|].
  exact (greeting_excludes_bye aHost helloGoodbye wit e E).
Defined.

(** ** The payload a turn hands back *)

(** Reading after writing, on the own properties of an object. *)
Lemma lookup_assign_same (k : string) (v : Value) (props : list (string * Value)) :
  lookupProp k (assignProp k v props) = v.
Proof.
  induction props as [|[k' v'] r IH]; cbn.
  - now rewrite String.eqb_refl.
  - destruct (String.eqb k k') eqn:E; cbn; rewrite E; [reflexivity | exact IH].
Qed.

Lemma lookup_assign_other (k k0 : string) (v : Value) (props : list (string * Value)) :
  k0 <> k ->
  lookupProp k0 (assignProp k v props) = lookupProp k0 props.
Proof.
  intros Hk. induction props as [|[k' v'] r IH]; cbn.
  - apply String.eqb_neq in Hk. now rewrite Hk.
  - destruct (String.eqb k k') eqn:E; cbn.
    + apply String.eqb_eq in E. subst k'.
      apply String.eqb_neq in Hk. now rewrite Hk.
    + destruct (String.eqb k0 k'); [reflexivity | exact IH].
Qed.

(** The [wit] of a result is the object the Wit service answered, after
    the three assignments of [process]: its [intents], [entities] and
    [traits] are never falsy, each being what the service sent or the empty
    default, and every other property is as the service sent it. *)
Theorem result_wit_carries_defaults (H : Host) (jokes : list string) (R : Robin)
    (fuel : nat) (heap heap' : gmap loc Context) (session : Session.t)
    (res : Result.t) (props : list (string * Value)) :
  queryWit R session = Ok (VObj props) ->
  process H jokes R fuel heap session = Some (Ok res, heap') ->
  prop (Result.wit res) "intents" = orElse (lookupProp "intents" props) (VArr [])
  /\ prop (Result.wit res) "entities" = orElse (lookupProp "entities" props) (VObj [])
  /\ prop (Result.wit res) "traits" = orElse (lookupProp "traits" props) (VObj [])
  /\ truthy (prop (Result.wit res) "intents") = true
  /\ truthy (prop (Result.wit res) "entities") = true
  /\ truthy (prop (Result.wit res) "traits") = true
  /\ (forall k, k <> "intents" -> k <> "entities" -> k <> "traits" ->
      prop (Result.wit res) k = lookupProp k props).
Proof.
  intros Hq. unfold process.
  destruct (heap !! Session.context session) as [original|]; [|discriminate].
  rewrite Hq. cbn [res_bind].
  destruct (normalize H (VObj props)) as [[wit e]| |] eqn:En; try discriminate.
  destruct (transition H jokes e session fuel _) as [[b|err|] l]; cbn [res_bind];
    try discriminate.
  intros [= <- _]. cbn [Result.wit].
  destruct (normalize_steps H _ _ _ En) as (_ & _ & Hw & _).
  cbn in Hw. injection Hw as <-. cbn [payload written prop].
  assert (Ht : forall v d, truthy d = true -> truthy (orElse v d) = true).
  { intros v d Hd. unfold orElse. destruct (truthy v) eqn:E; [exact E | exact Hd]. }
  rewrite lookup_assign_same.
  rewrite (lookup_assign_other "traits" "entities") by discriminate.
  rewrite lookup_assign_same.
  rewrite (lookup_assign_other "traits" "intents") by discriminate.
  rewrite (lookup_assign_other "entities" "intents") by discriminate.
  rewrite lookup_assign_same.
  repeat split; try (apply Ht; reflexivity).
  intros k K1 K2 K3. now rewrite !lookup_assign_other.
Qed.

(** "hello" understood by a Wit service that answers the object without
    any field: the result holds the three defaults. *)
Lemma result_wit_carries_defaults_example :
  exists res heap',
    process aHost someJokes aRobin 4 aHeap aSession = Some (Ok res, heap')
    /\ prop (Result.wit res) "intents" = VArr []
    /\ prop (Result.wit res) "entities" = VObj []
    /\ prop (Result.wit res) "traits" = VObj [].
Proof.
  destruct (process aHost someJokes aRobin 4 aHeap aSession) as [[[res|e|] heap']|] eqn:E;
    try (vm_compute in E; discriminate E).
  exists res, heap'. split; [reflexivity|].
  destruct (result_wit_carries_defaults aHost someJokes aRobin 4 aHeap heap' aSession res []
              eq_refl E) as (T1 & T2 & T3 & _).
  exact (conj T1 (conj T2 T3)).
Defined.
